(** * UserApp.py: a Streamlit chat front-end over a retrieval query engine

    A shallow embedding of [src/UserApp.py].  One run of the script is a
    computation in a small state-and-exception monad that also records, in
    order, everything the run shows to the user, writes to the log or asks of
    a remote service.  The hosted services and the LlamaIndex library are
    outside the repository; they appear as the fields of a [World] record
    that each run receives.  The calls that draw the page ([st.title],
    [st.error], [st.chat_message] and the like) are recorded and do not
    raise. *)

From Stdlib Require Import ZArith Bool Ascii String.
From stdpp Require Import base option list strings gmap pretty.

Local Open Scope string_scope.
Local Open Scope list_scope.
Local Open Scope Z_scope.

(** ** Python values, objects and exceptions *)

Module Py.

(** The values an attribute of a response object may hold. *)
Inductive Val :=
| VNone
| VBool (b : bool)
| VInt (z : Z)
| VStr (s : string).

(** The builtin [str] on those values. *)
Definition str (v : Val) : string :=
  match v with
  | VNone => "None"
  | VBool true => "True"
  | VBool false => "False"
  | VInt z => pretty z
  | VStr s => s
  end.

(** An object: the name of its class and its attribute dictionary. *)
Record Obj := mkObj {
  obj_class : string;
  obj_attrs : gmap string Val;
}.

(** A raised exception: the name of its class and what [str(e)] gives.
    Every exception of the model derives from [Exception], so that
    [except Exception] catches it. *)
Record Exn := mkExn {
  exn_class : string;
  exn_str : string;
}.

Inductive Result (A : Type) :=
| Ok (a : A)
| Raise (e : Exn).
Arguments Ok {A} a.
Arguments Raise {A} e.

Definition squote : string := "'".

(** [obj.name]: the attribute, or AttributeError. *)
Definition getattr (o : Obj) (name : string) : Result Val :=
  match obj_attrs o !! name with
  | Some v => Ok v
  | None =>
      Raise (mkExn "AttributeError"
               (squote +:+ obj_class o +:+ "' object has no attribute '" +:+ name +:+ squote))
  end.

(** [os.environ[key]]: the value, or KeyError, whose [str] is the repr of
    the key. *)
Definition environ_get (env : gmap string string) (key : string) : Result string :=
  match env !! key with
  | Some v => Ok v
  | None => Raise (mkExn "KeyError" (squote +:+ key +:+ squote))
  end.

(** Truth value of what [st.chat_input] returns: [None] and the empty string
    are false, every other string is true. *)
Definition truthy (q : option string) : bool :=
  match q with
  | Some s => negb (String.eqb s "")
  | None => false
  end.

End Py.

Import Py.

(** ** [get_response_text]

<<
def get_response_text(response):
    return str(response.response)
>> *)
Definition get_response_text (response : Obj) : Result string :=
  match getattr response "response" with
  | Ok v => Ok (str v)
  | Raise e => Raise e
  end.

(** ** Data of the application *)

(** One entry of the chat history: the dictionary
    [{"role": ..., "content": ...}], whose two keys are fixed. *)
Record Message := mkMessage {
  role : string;
  content : string;
}.

Inductive PromptType := QUESTION_ANSWER | SUMMARY | CUSTOM.

Record PromptTemplate := mkPromptTemplate {
  template : string;
  prompt_type : PromptType;
}.

(** Handles of the remote clients, each holding what it was built from. *)
Record LLM := Gemini { llm_api_key : string; llm_model : string }.
Record EmbedModel := GeminiEmbedding { embed_model_name : string }.
Record PineconeClient := Pinecone { pinecone_api_key : string }.
Record PineconeIndex := mkPineconeIndex {
  index_client : PineconeClient;
  index_name : string;
}.
Record VectorStore := PineconeVectorStore { pinecone_index : PineconeIndex }.
Record VectorStoreIndex := from_vector_store { vector_store : VectorStore }.

(** What [index.as_query_engine(...)] was given. *)
Record QueryEngine := as_query_engine {
  engine_index : VectorStoreIndex;
  text_qa_template : PromptTemplate;
  similarity_top_k : Z;
}.

(** The process-wide [Settings] object of the library. *)
Record Settings := mkSettings {
  llm : option LLM;
  embed_model : option EmbedModel;
}.

(** [st.session_state]: an attribute is absent until it is first assigned. *)
Record SessionState := mkSessionState {
  chat_history : option (list Message);
  query_engine : option QueryEngine;
}.

Record Store := mkStore {
  settings : Settings;
  session_state : SessionState;
}.

(** The library calls of [initialize_chatbot] and [create_query_engine]
    that may fail. *)
Inductive LibCall :=
| NewGemini (api_key model : string)
| NewGeminiEmbedding (model_name : string)
| NewPinecone (api_key : string)
| PineconeGetIndex (name : string)
| NewPineconeVectorStore
| FromVectorStore
| AsQueryEngine.

(** A request to a hosted service made while one query is answered. *)
Inductive RemoteCall :=
| Embed (text : string)
| Search (k : Z)
| Complete (prompt : string).

(** What a run does that can be observed, in order. *)
Inductive Event :=
| SetPageConfig (page_title page_icon layout : string)
| Title (body : string)
| SpinnerEnter (text : string)
| SpinnerExit
| Success (body : string)
| ChatWrite (name body : string)
| ChatMarkdown (name body : string)
| ChatInput (placeholder : string)
| Error (body : string)
| Info (body : string)
| Warning (body : string)
| LogError (msg : string)
| LoadDotenv
| Lib (c : LibCall)
| Remote (c : RemoteCall).

(** The surroundings of one run: the environment variables as they are
    after [load_dotenv()], which library calls fail, and the [query]
    method of the engine, with the remote requests it makes. *)
Record World := mkWorld {
  environ : gmap string string;
  lib_fails : LibCall -> option Exn;
  engine_query : QueryEngine -> string -> list RemoteCall * Result Obj;
}.

(** ** The monad of a run *)

Definition M (A : Type) : Type := Store -> Result A * Store * list Event.

Definition ret {A} (a : A) : M A := fun s => (Ok a, s, []).

Definition bind {A B} (m : M A) (k : A -> M B) : M B := fun s =>
  match m s with
  | (Ok a, s1, t1) => let '(r, s2, t2) := k a s1 in (r, s2, t1 ++ t2)
  | (Raise e, s1, t1) => (Raise e, s1, t1)
  end.

Definition raise {A} (e : Exn) : M A := fun s => (Raise e, s, []).

Definition lift {A} (r : Result A) : M A := fun s => (r, s, []).

Definition emit (ev : Event) : M unit := fun s => (Ok tt, s, [ev]).

Definition get : M Store := fun s => (Ok s, s, []).

Definition put (s' : Store) : M unit := fun _ => (Ok tt, s', []).

(** [try: m  except Exception as e: h e] *)
Definition try_except {A} (m : M A) (h : Exn -> M A) : M A := fun s =>
  match m s with
  | (Ok a, s1, t1) => (Ok a, s1, t1)
  | (Raise e, s1, t1) => let '(r, s2, t2) := h e s1 in (r, s2, t1 ++ t2)
  end.

(** [with st.spinner(text): body]: the spinner is removed however the body
    ends. *)
Definition with_spinner {A} (text : string) (body : M A) : M A := fun s =>
  let '(r, s1, t1) := body s in (r, s1, SpinnerEnter text :: t1 ++ [SpinnerExit]).

Declare Scope run_scope.
Delimit Scope run_scope with run.
Notation "'let*' x := m 'in' k" := (bind m (fun x => k))
  (at level 10, x name, m at level 100, k at level 200) : run_scope.
Notation "m ;; k" := (bind m (fun _ => k))
  (at level 100, k at level 200, right associativity) : run_scope.
Local Open Scope run_scope.

(** A library call: it is recorded, then fails or gives the handle. *)
Definition lib_call {A} (w : World) (c : LibCall) (handle : A) : M A :=
  emit (Lib c) ;;
  match lib_fails w c with
  | Some e => raise e
  | None => ret handle
  end.

Definition dquote : string := String "034"%char "".

(** Reading an attribute of [st.session_state] that was never assigned
    raises AttributeError.  The text is the first sentence of the message
    Streamlit gives, which goes on with a hint and a link. *)
Definition session_attr {A} (name : string) (field : SessionState -> option A) : M A :=
  let* s := get in
  match field (session_state s) with
  | Some a => ret a
  | None =>
      raise (mkExn "AttributeError"
               ("st.session_state has no attribute " +:+ dquote +:+ name +:+ dquote))
  end.

Definition set_settings (f : Settings -> Settings) : M unit :=
  let* s := get in put (mkStore (f (settings s)) (session_state s)).

Definition set_session (f : SessionState -> SessionState) : M unit :=
  let* s := get in put (mkStore (settings s) (f (session_state s))).

(** ** The program *)

Definition nl : string := String "010"%char "".

(** [initialize_chatbot]: builds the two model clients, stores them in
    [Settings], connects to the vector index named "constitution" and wraps
    it.  Whatever is raised on the way is logged and raised again. *)
Definition initialize_chatbot (w : World) : M VectorStoreIndex :=
  try_except
    (emit LoadDotenv ;;
     let* google_api_key := lift (environ_get (environ w) "GOOGLE_API_KEY") in
     let* the_llm :=
       lib_call w (NewGemini google_api_key "models/gemini-1.5-pro-002")
         (Gemini google_api_key "models/gemini-1.5-pro-002") in
     let* the_embed_model :=
       lib_call w (NewGeminiEmbedding "models/embedding-001")
         (GeminiEmbedding "models/embedding-001") in
     set_settings (fun st => mkSettings (Some the_llm) (embed_model st)) ;;
     set_settings (fun st => mkSettings (llm st) (Some the_embed_model)) ;;
     let* pinecone_api_key := lift (environ_get (environ w) "PINECONE_API_KEY") in
     let* pinecone_client := lib_call w (NewPinecone pinecone_api_key) (Pinecone pinecone_api_key) in
     let* the_pinecone_index :=
       lib_call w (PineconeGetIndex "constitution")
         (mkPineconeIndex pinecone_client "constitution") in
     let* the_vector_store :=
       lib_call w NewPineconeVectorStore (PineconeVectorStore the_pinecone_index) in
     let* index := lib_call w FromVectorStore (from_vector_store the_vector_store) in
     ret index)
    (fun e =>
       emit (LogError ("Error initializing chatbot: " +:+ exn_str e)) ;;
       raise e).

Definition DEFAULT_TEXT_QA_PROMPT_TMPL : string :=
  "Context information is below." +:+ nl +:+
  "---------------------" +:+ nl +:+
  "{context_str}" +:+ nl +:+
  "---------------------" +:+ nl +:+
  "Given the context information and not prior knowledge, " +:+
  "Only answer questions that you can answer based on the context. " +:+
  "Answer the query." +:+ nl +:+
  "Query: {query_str}" +:+ nl +:+
  "Answer: ".

Definition DEFAULT_TEXT_QA_PROMPT : PromptTemplate :=
  mkPromptTemplate DEFAULT_TEXT_QA_PROMPT_TMPL QUESTION_ANSWER.

(** [create_query_engine]: the engine over [index] with the prompt above and
    [similarity_top_k=7]. *)
Definition create_query_engine (w : World) (index : VectorStoreIndex) : M QueryEngine :=
  lib_call w AsQueryEngine (as_query_engine index DEFAULT_TEXT_QA_PROMPT 7).

(** [query_engine.query(query)]: the remote requests it makes are recorded,
    and it returns a response object or raises. *)
Definition query (w : World) (qe : QueryEngine) (q : string) : M Obj := fun s =>
  let '(calls, r) := engine_query w qe q in (r, s, map Remote calls).

Fixpoint for_each {A} (l : list A) (body : A -> M unit) : M unit :=
  match l with
  | [] => ret tt
  | x :: l' => body x ;; for_each l' body
  end.

(** The body of the loop over the chat history (lines 90 to 96). *)
Definition show_message (message : Message) : M unit :=
  if String.eqb (role message) "user"
  then emit (ChatWrite "user" (content message))
  else emit (ChatMarkdown "assistant" (content message)).

(** [st.session_state.chat_history]: the list itself. *)
Definition read_chat_history : M (list Message) :=
  session_attr "chat_history" chat_history.

(** [st.session_state.chat_history.extend(turns)]: the list is changed in
    place, the new turns go after the ones it holds. *)
Definition extend_chat_history (turns : list Message) : M unit :=
  let* history := read_chat_history in
  set_session (fun ss => mkSessionState (Some (history ++ turns)) (query_engine ss)).

(** The body of [if query := st.chat_input(...)] (lines 100 to 118). *)
Definition process_query (w : World) (q : string) : M unit :=
  emit (ChatWrite "user" q) ;;
  try_except
    (let* response_text :=
       with_spinner "Analyzing your question..."
         (let* qe := session_attr "query_engine" query_engine in
          let* response := query w qe q in
          lift (get_response_text response)) in
     emit (ChatMarkdown "assistant" response_text) ;;
     extend_chat_history
       [mkMessage "user" q; mkMessage "assistant" response_text])
    (fun e =>
       emit (Error ("Error processing question: " +:+ exn_str e)) ;;
       emit (Info "Please try rephrasing your question.")).

(** [if 'query_engine' not in st.session_state: ...] (lines 82 to 86). *)
Definition initialize_system (w : World) : M unit :=
  let* s := get in
  match query_engine (session_state s) with
  | None =>
      with_spinner "Initializing system..."
        (let* index := initialize_chatbot w in
         let* qe := create_query_engine w index in
         set_session (fun ss => mkSessionState (chat_history ss) (Some qe))) ;;
      emit (Success "System initialized successfully!")
  | Some _ => ret tt
  end.

(** The main chat interface (lines 88 to 118): the history is shown, then
    the input box; [chat_input] is what [st.chat_input] returns in this
    run. *)
Definition chat_interface (w : World) (chat_input : option string) : M unit :=
  let* history := read_chat_history in
  for_each history show_message ;;
  emit (ChatInput "Ask about products...") ;;
  match chat_input with
  | Some q => if truthy chat_input then process_query w q else ret tt
  | None => ret tt
  end.

(** [main]: one pass over the page. *)
Definition main (w : World) (chat_input : option string) : M unit :=
  emit (SetPageConfig "Knowledge AI Agent" "🏪" "wide") ;;
  emit (Title "Knowledge AI Agent") ;;
  try_except
    (initialize_system w ;;
     chat_interface w chat_input)
    (fun e =>
       emit (Error ("System Error: " +:+ exn_str e)) ;;
       emit (Warning "Please check your configuration and try again.")).

(** Lines 20 and 21, run at the top of the script. *)
Definition init_session_state : M unit :=
  let* s := get in
  match chat_history (session_state s) with
  | None => set_session (fun ss => mkSessionState (Some []) (query_engine ss))
  | Some _ => ret tt
  end.

(** One run of the script: Streamlit runs it from the top at every
    interaction of the user, against the same [st.session_state]. *)
Definition script (w : World) (chat_input : option string) : M unit :=
  init_session_state ;; main w chat_input.

(** A new session in a new process. *)
Definition fresh : Store :=
  mkStore (mkSettings None None) (mkSessionState None None).

(** The store and the events of one run. *)
Definition run (w : World) (chat_input : option string) (s : Store) : Store * list Event :=
  let '(_, s', t) := script w chat_input s in (s', t).

(** A session: one run per interaction, each in the world of its moment. *)
Fixpoint session (steps : list (World * option string)) (s : Store) : Store :=
  match steps with
  | [] => s
  | (w, i) :: steps' => session steps' (fst (run w i s))
  end.

(** ** The retrieval pipeline behind [query] *)

Module Pipeline.

(** Modelled from the spec: the body of the engine's [query] method is in
    the LlamaIndex library and the services behind it are remote, so neither
    is in [src/].  Sections 3 and 4.1 to 4.4 of the specification give the
    contracts followed here.  [Float] stands for the numbers of the
    embedding space, whose arithmetic the program never touches. *)
Record RetrievedChunk (F : Type) := mkChunk {
  text : string;
  similarity_score : F;
  source_metadata : gmap string string;
}.
Arguments mkChunk {F}.
Arguments text {F}.
Arguments similarity_score {F}.
Arguments source_metadata {F}.

(** Modelled from the spec: the three remote services, [embed] (4.1),
    [search] (4.2) and the language model called by [synthesize] (4.3), whose
    answer is a text or nothing; [chunk_separator] is what the library puts
    between two chunk texts of the context block. *)
Record Services := mkServices {
  Float : Type;
  embed : string -> Result (list Float);
  search : list Float -> Z -> Result (list (RetrievedChunk Float));
  complete : string -> Result Val;
  chunk_separator : string;
}.

Definition prepend (s : string) (r : Result string) : Result string :=
  match r with
  | Ok t => Ok (s +:+ t)
  | Raise e => Raise e
  end.

(** Modelled from the spec: substitution of named fields into a template,
    as Python's [str.format] does it with keyword arguments.  [field] is
    [None] in literal text and holds the name read so far inside braces;
    doubled braces stand for one literal brace. *)
Fixpoint format_from (kwargs : gmap string string) (t : string) (field : option string)
  : Result string :=
  match field, t with
  | None, EmptyString => Ok ""
  | None, String "{" (String "{" r) => prepend "{" (format_from kwargs r None)
  | None, String "{" r => format_from kwargs r (Some "")
  | None, String "}" (String "}" r) => prepend "}" (format_from kwargs r None)
  | None, String "}" _ =>
      Raise (mkExn "ValueError" "Single '}' encountered in format string")
  | None, String c r => prepend (String c "") (format_from kwargs r None)
  | Some name, EmptyString =>
      Raise (mkExn "ValueError" "expected '}' before end of string")
  | Some name, String "}" r =>
      match kwargs !! name with
      | Some v => prepend v (format_from kwargs r None)
      | None => Raise (mkExn "KeyError" (squote +:+ name +:+ squote))
      end
  | Some name, String c r => format_from kwargs r (Some (name +:+ String c ""))
  end.

Definition format (tmpl : PromptTemplate) (kwargs : gmap string string) : Result string :=
  format_from kwargs (template tmpl) None.

(** Modelled from the spec (4.3): the chunk texts, in the order received,
    form one context block. *)
Definition context_block (sv : Services) (chunks : list (RetrievedChunk (Float sv))) : string :=
  String.concat (chunk_separator sv) (map text chunks).

(** Modelled from the spec (4.3): the context block and the query are
    substituted into the template and the rendered prompt is sent to the
    language model. *)
Definition synthesize (sv : Services) (tmpl : PromptTemplate) (q : string)
    (chunks : list (RetrievedChunk (Float sv))) : list RemoteCall * Result Obj :=
  match format tmpl {[ "context_str" := context_block sv chunks; "query_str" := q ]} with
  | Ok prompt =>
      ([Complete prompt],
       match complete sv prompt with
       | Ok v => Ok (mkObj "Response" {[ "response" := v ]})
       | Raise e => Raise e
       end)
  | Raise e => ([], Raise e)
  end.

(** Modelled from the spec (4.4): embed the query, search with the engine's
    [similarity_top_k], synthesize from the query and the chunks found.  The
    check that the query is not empty is the one [main] makes at line 99,
    before it calls [query]. *)
Definition answer (sv : Services) (qe : QueryEngine) (q : string)
  : list RemoteCall * Result Obj :=
  match embed sv q with
  | Ok v =>
      match search sv v (similarity_top_k qe) with
      | Ok chunks =>
          let '(calls, r) := synthesize sv (text_qa_template qe) q chunks in
          (Embed q :: Search (similarity_top_k qe) :: calls, r)
      | Raise e => ([Embed q; Search (similarity_top_k qe)], Raise e)
      end
  | Raise e => ([Embed q], Raise e)
  end.

(** A world whose engine is that pipeline. *)
Definition world (env : gmap string string) (fails : LibCall -> option Exn)
    (sv : Services) : World :=
  mkWorld env fails (answer sv).

End Pipeline.

(** ** Observations on stores and traces *)

(** The chat history of a store, empty while the attribute is absent. *)
Definition history_of (s : Store) : list Message :=
  default [] (chat_history (session_state s)).

Definition engine_of (s : Store) : option QueryEngine :=
  query_engine (session_state s).

(** The store once lines 20 and 21 have run. *)
Definition initialized (s : Store) : Store :=
  mkStore (settings s) (mkSessionState (Some (history_of s)) (engine_of s)).

(** The store once [turns] have been appended to its history. *)
Definition with_turns (s : Store) (turns : list Message) : Store :=
  mkStore (settings s) (mkSessionState (Some (history_of s ++ turns)) (engine_of s)).

(** The store once [qe] has been assigned to [st.session_state.query_engine]. *)
Definition with_engine (s : Store) (qe : QueryEngine) : Store :=
  mkStore (settings s) (mkSessionState (chat_history (session_state s)) (Some qe)).

(** Lines 84 and 85 together: the index, then the engine over it. *)
Definition startup (w : World) : M QueryEngine :=
  let* index := initialize_chatbot w in create_query_engine w index.

(** The pipeline invocation of lines 104 and 105 as a value: the text of
    the answer, or what was raised. *)
Definition invocation (w : World) (qe : QueryEngine) (q : string) : Result string :=
  match snd (engine_query w qe q) with
  | Ok response => get_response_text response
  | Raise e => Raise e
  end.

(** The remote requests of the same invocation. *)
Definition requests (w : World) (qe : QueryEngine) (q : string) : list Event :=
  map Remote (fst (engine_query w qe q)).

Definition page_header : list Event :=
  [SetPageConfig "Knowledge AI Agent" "🏪" "wide"; Title "Knowledge AI Agent"].

(** What the loop of lines 89 to 96 shows for one entry. *)
Definition shown (message : Message) : Event :=
  if String.eqb (role message) "user"
  then ChatWrite "user" (content message)
  else ChatMarkdown "assistant" (content message).

(** The turn a chat bubble displays. *)
Definition bubble (ev : Event) : option Message :=
  match ev with
  | ChatWrite name body => Some (mkMessage name body)
  | ChatMarkdown name body => Some (mkMessage name body)
  | _ => None
  end.

(** The turns displayed above the input box: the bubbles of the trace up to
    the [ChatInput] event. *)
Fixpoint transcript (t : list Event) : list Message :=
  match t with
  | [] => []
  | ChatInput _ :: _ => []
  | ev :: t' =>
      match bubble ev with
      | Some m => m :: transcript t'
      | None => transcript t'
      end
  end.

Definition remote_calls (t : list Event) : list RemoteCall :=
  omap (fun ev => match ev with Remote c => Some c | _ => None end) t.

Definition startup_event (ev : Event) : bool :=
  match ev with
  | LoadDotenv | Lib _ | LogError _ => true
  | _ => false
  end.

Definition system_error (ev : Event) : bool :=
  match ev with
  | Error body => String.prefix "System Error: " body
  | _ => false
  end.

Definition user_turn (q : string) : Message := mkMessage "user" q.
Definition assistant_turn (a : string) : Message := mkMessage "assistant" a.

(** User and assistant turns alternate in pairs, a user turn first. *)
Fixpoint well_paired (h : list Message) : bool :=
  match h with
  | [] => true
  | u :: a :: h' =>
      String.eqb (role u) "user" && String.eqb (role a) "assistant" && well_paired h'
  | [_] => false
  end.

(** What the chat interface shows while no query is processed. *)
Definition idle_view (s : Store) : list Event :=
  map shown (history_of s) ++ [ChatInput "Ask about products..."].

(** What it shows from the submission of [q] to the end of the pipeline
    invocation. *)
Definition query_view (w : World) (s : Store) (qe : QueryEngine) (q : string) : list Event :=
  idle_view s
    ++ ChatWrite "user" q :: SpinnerEnter "Analyzing your question..."
    :: requests w qe q ++ [SpinnerExit].

Definition answer_view (w : World) (s : Store) (qe : QueryEngine) (q txt : string)
  : list Event :=
  query_view w s qe q ++ [ChatMarkdown "assistant" txt].

Definition query_error_view (w : World) (s : Store) (qe : QueryEngine) (q : string)
    (e : Exn) : list Event :=
  query_view w s qe q
    ++ [Error ("Error processing question: " +:+ exn_str e);
        Info "Please try rephrasing your question."].

(** The store and the events the chat interface ends with, on a store that
    holds the engine [qe]. *)
Definition chat_view (w : World) (s : Store) (qe : QueryEngine)
    (chat_input : option string) : Store * list Event :=
  match chat_input with
  | Some q =>
      if truthy chat_input then
        match invocation w qe q with
        | Ok txt => (with_turns s [user_turn q; assistant_turn txt], answer_view w s qe q txt)
        | Raise e => (initialized s, query_error_view w s qe q e)
        end
      else (initialized s, idle_view s)
  | None => (initialized s, idle_view s)
  end.

(** What a run shows when start-up raises [e] after the events [t1]. *)
Definition system_error_view (t1 : list Event) (e : Exn) : list Event :=
  page_header
    ++ SpinnerEnter "Initializing system..." :: t1
    ++ [SpinnerExit; Error ("System Error: " +:+ exn_str e);
        Warning "Please check your configuration and try again."].

(** What a run shows of a start-up that succeeds with the events [t1]. *)
Definition started_view (t1 : list Event) : list Event :=
  page_header
    ++ SpinnerEnter "Initializing system..." :: t1
    ++ [SpinnerExit; Success "System initialized successfully!"].

(** The stores a session can be in: a new session starts without
    attributes, in a process whose [Settings] may already be set, and every
    interaction runs the script once, in any world. *)
Inductive reachable : Store -> Prop :=
| reachable_new (st : Settings) :
    reachable (mkStore st (mkSessionState None None))
| reachable_run (w : World) (chat_input : option string) (s : Store) :
    reachable s -> reachable (fst (run w chat_input s)).

(** Every engine this program builds. *)
Definition built_here (qe : QueryEngine) : Prop :=
  exists index, qe = as_query_engine index DEFAULT_TEXT_QA_PROMPT 7.

(** Whether [needle] occurs in [hay]. *)
Fixpoint contains (needle hay : string) : bool :=
  String.prefix needle hay
  || match hay with
     | EmptyString => false
     | String _ hay' => contains needle hay'
     end.

(** The prompt with [context] and [q] in the places of the two fields of
    [DEFAULT_TEXT_QA_PROMPT_TMPL]. *)
Definition rendered_prompt (context q : string) : string :=
  "Context information is below." +:+ nl +:+
  "---------------------" +:+ nl +:+
  context +:+ nl +:+
  "---------------------" +:+ nl +:+
  "Given the context information and not prior knowledge, " +:+
  "Only answer questions that you can answer based on the context. " +:+
  "Answer the query." +:+ nl +:+
  "Query: " +:+ q +:+ nl +:+
  "Answer: ".

(** The requests of the pipeline for the query [q], by what the services
    answer: each one is made only when the one before it succeeded. *)
Definition pipeline_calls (sv : Pipeline.Services) (q : string) : list RemoteCall :=
  match Pipeline.embed sv q with
  | Ok v =>
      match Pipeline.search sv v 7 with
      | Ok chunks =>
          [Embed q; Search 7;
           Complete (rendered_prompt (Pipeline.context_block sv chunks) q)]
      | Raise _ => [Embed q; Search 7]
      end
  | Raise _ => [Embed q]
  end.

(** A start-up failure is fatal to the session when no later run of the
    session has a query engine. *)
Definition fatal_to_session (w : World) (chat_input : option string) (s : Store) : Prop :=
  forall steps, engine_of (session steps (fst (run w chat_input s))) = None.

(** ** Sample worlds and stores *)

Module Sample.

Definition env : gmap string string :=
  {[ "GOOGLE_API_KEY" := "g-key"; "PINECONE_API_KEY" := "p-key" ]}.

Definition never_fails : LibCall -> option Exn := fun _ => None.

Definition response (v : Val) : Obj := mkObj "Response" {[ "response" := v ]}.

(** Every query is answered with the same sentence. *)
Definition answering : World :=
  mkWorld env never_fails
    (fun _ q =>
       ([Embed q; Search 7; Complete q],
        Ok (response (VStr "Article 1 establishes the legislature.")))).

(** The embedding service cannot be reached. *)
Definition unreachable : World :=
  mkWorld env never_fails
    (fun _ q => ([Embed q], Raise (mkExn "ConnectionError" "service unreachable"))).

(** The language-model service refuses the client. *)
Definition llm_down : World :=
  mkWorld env
    (fun c =>
       match c with
       | NewGemini _ _ => Some (mkExn "ServiceUnavailable" "503 model is overloaded")
       | _ => None
       end)
    (fun _ q => ([Embed q], Raise (mkExn "ConnectionError" "service unreachable"))).

(** No credential is configured. *)
Definition unconfigured : World :=
  mkWorld ∅ never_fails
    (fun _ q => ([Embed q], Raise (mkExn "ConnectionError" "service unreachable"))).

Definition new_session : Store :=
  mkStore (mkSettings None None) (mkSessionState None None).

(** The session after its first run in the world [answering]. *)
Definition started : Store := fst (run answering None new_session).

Definition engine : QueryEngine :=
  as_query_engine
    (from_vector_store
       (PineconeVectorStore (mkPineconeIndex (Pinecone "p-key") "constitution")))
    DEFAULT_TEXT_QA_PROMPT 7.

(** Services that find one chunk and answer from it. *)
Definition services : Pipeline.Services :=
  Pipeline.mkServices Z
    (fun _ => Ok [1; 2; 3])
    (fun _ _ => Ok [Pipeline.mkChunk "Article 1 establishes the legislature." 9 ∅])
    (fun _ => Ok (VStr "The legislature."))
    (nl +:+ nl).

Definition retrieving : World := Pipeline.world env never_fails services.

(** Only the credential of the model services is configured. *)
Definition no_pinecone_key : World :=
  mkWorld {[ "GOOGLE_API_KEY" := "g-key" ]} never_fails
    (fun _ q => ([Embed q], Raise (mkExn "ConnectionError" "service unreachable"))).

(** The index cannot be turned into a query engine. *)
Definition engine_build_fails : World :=
  mkWorld env
    (fun c =>
       match c with
       | AsQueryEngine => Some (mkExn "ValueError" "unknown response mode")
       | _ => None
       end)
    (fun _ q => ([Embed q], Raise (mkExn "ConnectionError" "service unreachable"))).

(** The engine returns an object that has no [response] attribute. *)
Definition streaming : World :=
  mkWorld env never_fails
    (fun _ q => ([Embed q; Search 7; Complete q], Ok (mkObj "StreamingResponse" ∅))).

(** A store whose history holds a turn with a role of neither kind. *)
Definition foreign_role : Store :=
  mkStore (mkSettings None None)
    (mkSessionState
       (Some [mkMessage "user" "Hello"; mkMessage "system" "You are helpful."])
       (Some engine)).

End Sample.

(** ** Further observations *)

Definition lib_calls (t : list Event) : list LibCall :=
  omap (fun ev => match ev with Lib c => Some c | _ => None end) t.

Definition log_errors (t : list Event) : list string :=
  omap (fun ev => match ev with LogError msg => Some msg | _ => None end) t.

(** The library calls of lines 28 to 38 and 62 to 65, in the order of the
    source, for the two credentials read from the environment. *)
Definition startup_calls (google_api_key pinecone_api_key : string) : list LibCall :=
  [NewGemini google_api_key "models/gemini-1.5-pro-002";
   NewGeminiEmbedding "models/embedding-001";
   NewPinecone pinecone_api_key;
   PineconeGetIndex "constitution";
   NewPineconeVectorStore;
   FromVectorStore;
   AsQueryEngine].

(** The engine and the settings that a start-up with those credentials
    leaves. *)
Definition engine_for (pinecone_api_key : string) : QueryEngine :=
  as_query_engine
    (from_vector_store
       (PineconeVectorStore (mkPineconeIndex (Pinecone pinecone_api_key) "constitution")))
    DEFAULT_TEXT_QA_PROMPT 7.

Definition settings_for (google_api_key : string) : Settings :=
  mkSettings (Some (Gemini google_api_key "models/gemini-1.5-pro-002"))
    (Some (GeminiEmbedding "models/embedding-001")).

(** The bubble under which the loop of lines 89 to 96 puts a turn. *)
Definition displayed_as (m : Message) : Message :=
  mkMessage (if String.eqb (role m) "user" then "user" else "assistant") (content m).

(** No step of the session carries a query. *)
Definition all_idle (steps : list (World * option string)) : Prop :=
  Forall (fun step => truthy (snd step) = false) steps.

(** * Properties *)

(** ** The steps of a run *)

(** Lists of events are compared with their appends to the right. *)
Ltac trace_eq :=
  repeat (progress (rewrite <- ?app_assoc; cbn [app]));
  try reflexivity.

Section Steps.

Variable w : World.

#[local] Arguments initialize_chatbot : simpl never.
#[local] Arguments create_query_engine : simpl never.

Lemma bind_ok {A B} (m : M A) (k : A -> M B) s a s1 t1 :
  m s = (Ok a, s1, t1) ->
  bind m k s = (let '(r, s2, t2) := k a s1 in (r, s2, t1 ++ t2)).
Proof. intros H. unfold bind. rewrite H. reflexivity. Qed.

Lemma bind_raise {A B} (m : M A) (k : A -> M B) s e s1 t1 :
  m s = (Raise e, s1, t1) -> bind m k s = (Raise e, s1, t1).
Proof. intros H. unfold bind. rewrite H. reflexivity. Qed.

Lemma show_message_shown m s : show_message m s = (Ok tt, s, [shown m]).
Proof.
  unfold show_message, shown. destruct (String.eqb (role m) "user"); reflexivity.
Qed.

Lemma for_each_show_message h s :
  for_each h show_message s = (Ok tt, s, map shown h).
Proof.
  induction h as [|m h IH]; [reflexivity|].
  cbn [for_each map]. rewrite (bind_ok _ _ _ _ _ _ (show_message_shown m s)).
  rewrite IH. reflexivity.
Qed.

Lemma init_session_state_initialized s :
  init_session_state s = (Ok tt, initialized s, []).
Proof.
  destruct s as [st [[h|] qe]]; reflexivity.
Qed.

(** [initialize_chatbot] touches [Settings] only, and what it records are
    start-up events. *)
Lemma initialize_chatbot_frame s :
  exists r st' t,
    initialize_chatbot w s = (r, mkStore st' (session_state s), t)
    /\ forallb startup_event t = true.
Proof.
  destruct s as [st ss].
  unfold initialize_chatbot, try_except, bind, lib_call, emit, lift, raise, ret,
    set_settings, get, put, environ_get; cbn [settings session_state].
  repeat match goal with
  | |- context [match ?x with Some _ => _ | None => _ end] => destruct x
  | |- _ => progress cbn
  end; eauto.
Qed.

Lemma startup_frame s :
  exists r st' t,
    startup w s = (r, mkStore st' (session_state s), t)
    /\ forallb startup_event t = true
    /\ forall qe, r = Ok qe -> built_here qe.
Proof.
  destruct (initialize_chatbot_frame s) as (r & st' & t & E & Ht).
  unfold startup, bind. rewrite E. destruct r as [index|e].
  - unfold create_query_engine, lib_call, bind, emit, raise, ret.
    destruct (lib_fails w AsQueryEngine) as [e|]; cbn.
    + exists (Raise e), st', (t ++ [Lib AsQueryEngine]). split; [reflexivity|].
      rewrite forallb_app, Ht. split; [reflexivity|discriminate].
    + eexists _, st', _. split; [reflexivity|].
      rewrite forallb_app, Ht. split; [reflexivity|].
      intros qe [= <-]. exists index. reflexivity.
  - exists (Raise e), st', t. repeat split; [exact Ht|discriminate].
Qed.

Lemma initialize_system_ready s qe :
  engine_of s = Some qe -> initialize_system w s = (Ok tt, s, []).
Proof.
  destruct s as [st [h e]]. cbn. intros ->. reflexivity.
Qed.

Lemma initialize_system_started s qe s1 t1 :
  engine_of s = None ->
  startup w s = (Ok qe, s1, t1) ->
  initialize_system w s =
    (Ok tt, with_engine s1 qe,
     SpinnerEnter "Initializing system..." :: t1
       ++ [SpinnerExit; Success "System initialized successfully!"]).
Proof.
  destruct s as [st [h e]]. cbn. intros ->.
  unfold startup, initialize_system, bind, with_spinner, get; cbn.
  destruct (initialize_chatbot w _) as [[[index|e] s2] t2]; [|intros [=]].
  destruct (create_query_engine w index s2) as [[[qe'|e] s3] t3]; [|intros [=]].
  intros [= -> -> <-]. destruct s1 as [st1 ss1]. cbn.
  rewrite !app_nil_r, <- !app_assoc. reflexivity.
Qed.

Lemma initialize_system_failed s e s1 t1 :
  engine_of s = None ->
  startup w s = (Raise e, s1, t1) ->
  initialize_system w s =
    (Raise e, s1, SpinnerEnter "Initializing system..." :: t1 ++ [SpinnerExit]).
Proof.
  destruct s as [st [h qe]]. cbn. intros ->.
  unfold startup, initialize_system, bind, with_spinner, get; cbn.
  destruct (initialize_chatbot w _) as [[[index|e'] s2] t2].
  - destruct (create_query_engine w index s2) as [[[qe'|e'] s3] t3]; [intros [=]|].
    intros [= -> -> <-]. cbn. rewrite ?app_nil_r. reflexivity.
  - intros [= -> -> ->]. cbn. reflexivity.
Qed.

Lemma process_query_answer s h qe q txt :
  chat_history (session_state s) = Some h ->
  engine_of s = Some qe ->
  invocation w qe q = Ok txt ->
  process_query w q s =
    (Ok tt, with_turns s [user_turn q; assistant_turn txt],
     ChatWrite "user" q :: SpinnerEnter "Analyzing your question..."
       :: requests w qe q ++ [SpinnerExit; ChatMarkdown "assistant" txt]).
Proof.
  destruct s as [st [h0 e0]]. cbn. intros -> ->.
  unfold invocation, requests, process_query, query, try_except, bind, with_spinner,
    extend_chat_history, read_chat_history, session_attr, set_session, get, put,
    emit, lift, ret; cbn.
  destruct (engine_query w qe q) as [calls [response|e]]; cbn; [|intros [=]].
  intros ->. cbn. rewrite ?app_nil_r, <- ?app_assoc. reflexivity.
Qed.

Lemma process_query_error s h qe q e :
  chat_history (session_state s) = Some h ->
  engine_of s = Some qe ->
  invocation w qe q = Raise e ->
  process_query w q s =
    (Ok tt, s,
     ChatWrite "user" q :: SpinnerEnter "Analyzing your question..."
       :: requests w qe q
       ++ [SpinnerExit; Error ("Error processing question: " +:+ exn_str e);
           Info "Please try rephrasing your question."]).
Proof.
  destruct s as [st [h0 e0]]. cbn. intros -> ->.
  unfold invocation, requests, process_query, query, try_except, bind, with_spinner,
    extend_chat_history, read_chat_history, session_attr, set_session, get, put,
    emit, lift, ret; cbn.
  destruct (engine_query w qe q) as [calls [response|e']]; cbn.
  - intros ->. cbn. rewrite ?app_nil_r, <- ?app_assoc. reflexivity.
  - intros [= ->]. rewrite ?app_nil_r, <- ?app_assoc. reflexivity.
Qed.

Lemma chat_interface_idle s h chat_input :
  chat_history (session_state s) = Some h ->
  truthy chat_input = false ->
  chat_interface w chat_input s =
    (Ok tt, s, map shown h ++ [ChatInput "Ask about products..."]).
Proof.
  intros Hh Hi. unfold chat_interface.
  assert (R : read_chat_history s = (Ok h, s, [])).
  { destruct s as [st [h0 e0]]. cbn in Hh. subst h0. reflexivity. }
  rewrite (bind_ok _ _ _ _ _ _ R).
  rewrite (bind_ok _ _ _ _ _ _ (for_each_show_message h s)).
  rewrite Hi. destruct chat_input; reflexivity.
Qed.

Lemma chat_interface_query s h q :
  chat_history (session_state s) = Some h ->
  truthy (Some q) = true ->
  chat_interface w (Some q) s =
    (let '(r, s', t) := process_query w q s in
     (r, s', map shown h ++ ChatInput "Ask about products..." :: t)).
Proof.
  intros Hh Hi. unfold chat_interface.
  assert (R : read_chat_history s = (Ok h, s, [])).
  { destruct s as [st [h0 e0]]. cbn in Hh. subst h0. reflexivity. }
  rewrite (bind_ok _ _ _ _ _ _ R).
  rewrite (bind_ok _ _ _ _ _ _ (for_each_show_message h s)).
  rewrite Hi. unfold bind, emit.
  destruct (process_query w q s) as [[r s'] t]. reflexivity.
Qed.

Lemma chat_interface_view s h qe chat_input :
  chat_history (session_state s) = Some h ->
  engine_of s = Some qe ->
  chat_interface w chat_input s =
    (Ok tt, fst (chat_view w s qe chat_input), snd (chat_view w s qe chat_input)).
Proof.
  intros Hh He.
  assert (Hs : initialized s = s).
  { destruct s as [st [h0 e0]]. cbn in Hh. subst h0. reflexivity. }
  assert (Hl : history_of s = h) by (unfold history_of; rewrite Hh; reflexivity).
  unfold chat_view. destruct (truthy chat_input) eqn:Ht.
  - destruct chat_input as [q|]; [|discriminate Ht].
    rewrite (chat_interface_query s h q Hh Ht).
    destruct (invocation w qe q) as [txt|e] eqn:Hi.
    + rewrite (process_query_answer s h qe q txt Hh He Hi). cbn [fst snd].
      unfold answer_view, query_view, idle_view. rewrite Hl. trace_eq.
    + rewrite (process_query_error s h qe q e Hh He Hi). cbn [fst snd].
      unfold query_error_view, query_view, idle_view.
      rewrite Hs, Hl. trace_eq.
  - rewrite (chat_interface_idle s h chat_input Hh Ht).
    unfold idle_view. rewrite Hs, Hl. destruct chat_input; reflexivity.
Qed.

Lemma script_main chat_input s :
  script w chat_input s = main w chat_input (initialized s).
Proof.
  unfold script. rewrite (bind_ok _ _ _ _ _ _ (init_session_state_initialized s)).
  destruct (main w chat_input (initialized s)) as [[r s'] t]. reflexivity.
Qed.

Lemma main_ready chat_input s qe :
  engine_of s = Some qe ->
  main w chat_input s =
    (let '(r, s', t) := chat_interface w chat_input s in
     match r with
     | Ok _ => (Ok tt, s', page_header ++ t)
     | Raise e =>
         (Ok tt, s',
          page_header ++ t
            ++ [Error ("System Error: " +:+ exn_str e);
                Warning "Please check your configuration and try again."])
     end).
Proof.
  intros E. unfold main, try_except, bind at 1 2, emit.
  rewrite (bind_ok _ _ _ _ _ _ (initialize_system_ready s qe E)).
  destruct (chat_interface w chat_input s) as [[[[]|e] s'] t]; reflexivity.
Qed.

Lemma main_started chat_input s qe s1 t1 :
  engine_of s = None ->
  startup w s = (Ok qe, s1, t1) ->
  main w chat_input s =
    (let '(r, s', t) := chat_interface w chat_input (with_engine s1 qe) in
     let shown_first :=
       page_header ++ SpinnerEnter "Initializing system..." :: t1
         ++ [SpinnerExit; Success "System initialized successfully!"] ++ t in
     match r with
     | Ok _ => (Ok tt, s', shown_first)
     | Raise e =>
         (Ok tt, s',
          shown_first
            ++ [Error ("System Error: " +:+ exn_str e);
                Warning "Please check your configuration and try again."])
     end).
Proof.
  intros E S. unfold main, try_except, bind at 1 2, emit.
  rewrite (bind_ok _ _ _ _ _ _ (initialize_system_started s qe s1 t1 E S)).
  destruct (chat_interface w chat_input _) as [[[[]|e] s'] t]; cbn;
    rewrite <- ?app_assoc; reflexivity.
Qed.

Lemma main_startup_failed chat_input s e s1 t1 :
  engine_of s = None ->
  startup w s = (Raise e, s1, t1) ->
  main w chat_input s =
    (Ok tt, s1,
     page_header ++ SpinnerEnter "Initializing system..." :: t1
       ++ [SpinnerExit; Error ("System Error: " +:+ exn_str e);
           Warning "Please check your configuration and try again."]).
Proof.
  intros E S. unfold main, try_except, bind at 1 2, emit.
  rewrite (bind_raise _ _ _ _ _ _ (initialize_system_failed s e s1 t1 E S)).
  cbn. rewrite <- ?app_assoc. reflexivity.
Qed.

(** A run on a store that holds the engine. *)
Lemma run_ready chat_input s qe :
  engine_of s = Some qe ->
  run w chat_input s =
    (fst (chat_view w s qe chat_input),
     page_header ++ snd (chat_view w s qe chat_input)).
Proof.
  intros He. unfold run. rewrite script_main.
  rewrite (main_ready chat_input (initialized s) qe He).
  rewrite (chat_interface_view (initialized s) (history_of s) qe chat_input eq_refl He).
  reflexivity.
Qed.

(** A run that starts the system with success. *)
Lemma run_started chat_input s qe s1 t1 :
  engine_of s = None ->
  startup w (initialized s) = (Ok qe, s1, t1) ->
  run w chat_input s =
    (fst (chat_view w (with_engine s1 qe) qe chat_input),
     started_view t1 ++ snd (chat_view w (with_engine s1 qe) qe chat_input)).
Proof.
  intros He Hs. unfold run. rewrite script_main.
  rewrite (main_started chat_input (initialized s) qe s1 t1 He Hs).
  destruct (startup_frame (initialized s)) as (r & st' & t & E & _).
  rewrite Hs in E. injection E as _ -> _.
  erewrite (chat_interface_view _ (history_of s) qe chat_input);
    [|reflexivity|reflexivity].
  unfold started_view. trace_eq.
Qed.

(** A run whose start-up fails. *)
Lemma run_startup_failed chat_input s e s1 t1 :
  engine_of s = None ->
  startup w (initialized s) = (Raise e, s1, t1) ->
  run w chat_input s = (s1, system_error_view t1 e).
Proof.
  intros He Hs. unfold run. rewrite script_main.
  rewrite (main_startup_failed chat_input (initialized s) e s1 t1 He Hs).
  reflexivity.
Qed.

End Steps.

(** ** Reading traces *)

Lemma remote_calls_app t1 t2 :
  remote_calls (t1 ++ t2) = remote_calls t1 ++ remote_calls t2.
Proof. apply omap_app. Qed.

Lemma remote_calls_shown h : remote_calls (map shown h) = [].
Proof.
  induction h as [|m h IH]; [reflexivity|].
  cbn [map]. unfold shown at 1. destruct (String.eqb (role m) "user"); exact IH.
Qed.

Lemma remote_calls_remote calls : remote_calls (map Remote calls) = calls.
Proof.
  induction calls as [|c calls IH]; [reflexivity|].
  cbn. unfold remote_calls in IH. rewrite IH. reflexivity.
Qed.

Lemma remote_calls_startup t : forallb startup_event t = true -> remote_calls t = [].
Proof.
  induction t as [|ev t IH]; [reflexivity|].
  cbn [forallb]. intros [Hev Ht]%andb_prop.
  destruct ev; try discriminate Hev; exact (IH Ht).
Qed.

Lemma truthy_nonempty q : q <> "" -> truthy (Some q) = true.
Proof.
  intros H. cbn. apply negb_true_iff, String.eqb_neq, H.
Qed.

Lemma truthy_inv chat_input :
  truthy chat_input = true -> exists q, chat_input = Some q /\ q <> "".
Proof.
  destruct chat_input as [q|]; [|discriminate]. cbn.
  intros H%negb_true_iff%String.eqb_neq. eauto.
Qed.

(** The remote requests of the chat interface are those of the engine's
    [query], made only for an input that is not empty. *)
Lemma chat_view_remote_calls w s qe chat_input :
  remote_calls (snd (chat_view w s qe chat_input)) =
    match chat_input with
    | Some q => if truthy chat_input then fst (engine_query w qe q) else []
    | None => []
    end.
Proof.
  assert (Hidle : remote_calls (idle_view s) = []).
  { unfold idle_view. rewrite remote_calls_app, remote_calls_shown. reflexivity. }
  assert (Hq : forall q, remote_calls (query_view w s qe q) = fst (engine_query w qe q)).
  { intros q. unfold query_view. rewrite remote_calls_app, Hidle. cbn [app].
    change (remote_calls (requests w qe q ++ [SpinnerExit]) = fst (engine_query w qe q)).
    rewrite remote_calls_app. unfold requests. rewrite remote_calls_remote.
    apply app_nil_r. }
  unfold chat_view. destruct chat_input as [q|]; [|exact Hidle].
  destruct (truthy (Some q)); [|exact Hidle].
  destruct (invocation w qe q) as [txt|e]; cbn [snd].
  - unfold answer_view. rewrite remote_calls_app, Hq. apply app_nil_r.
  - unfold query_error_view. rewrite remote_calls_app, Hq. apply app_nil_r.
Qed.

(** ** What a run does to the store *)

Lemma chat_view_store w s qe chat_input :
  fst (chat_view w s qe chat_input) = initialized s
  \/ exists q txt,
       chat_input = Some q /\ q <> "" /\ invocation w qe q = Ok txt
       /\ fst (chat_view w s qe chat_input)
          = with_turns s [user_turn q; assistant_turn txt].
Proof.
  unfold chat_view. destruct chat_input as [q|]; [|left; reflexivity].
  destruct (truthy (Some q)) eqn:Ht; [|left; reflexivity].
  destruct (truthy_inv _ Ht) as (q' & [= <-] & Hq).
  destruct (invocation w qe q) as [txt|e] eqn:Hi; [|left; reflexivity].
  right. exists q, txt. repeat split; assumption || reflexivity.
Qed.

(** A run keeps the engine, or creates one of this program's own when there
    was none; it keeps the history, or appends the two turns of the query it
    answered. *)
Lemma run_store w chat_input s :
  (engine_of (fst (run w chat_input s)) = engine_of s
   \/ engine_of s = None
      /\ exists qe, engine_of (fst (run w chat_input s)) = Some qe /\ built_here qe)
  /\ (chat_history (session_state (fst (run w chat_input s))) = Some (history_of s)
      \/ exists q txt,
           chat_input = Some q /\ q <> ""
           /\ chat_history (session_state (fst (run w chat_input s)))
              = Some (history_of s ++ [user_turn q; assistant_turn txt])).
Proof.
  destruct (engine_of s) as [qe|] eqn:He.
  - rewrite (run_ready w chat_input s qe He). cbn [fst].
    destruct (chat_view_store w s qe chat_input) as [->|(q & txt & -> & Hq & _ & ->)].
    + split; left; [exact He|reflexivity].
    + split; [left; exact He|right; exists q, txt; repeat split; assumption || reflexivity].
  - destruct (startup_frame w (initialized s)) as (r & st' & t & E & _ & Hb).
    destruct r as [qe|e].
    + rewrite (run_started w chat_input s qe _ _ He E). cbn [fst].
      split.
      * right. split; [reflexivity|]. exists qe. split; [|apply Hb; reflexivity].
        destruct (chat_view_store w (with_engine (mkStore st' (session_state (initialized s))) qe)
                    qe chat_input) as [->|(q & txt & _ & _ & _ & ->)]; reflexivity.
      * destruct (chat_view_store w (with_engine (mkStore st' (session_state (initialized s))) qe)
                    qe chat_input) as [->|(q & txt & -> & Hq & _ & ->)].
        -- left. reflexivity.
        -- right. exists q, txt. repeat split; assumption || reflexivity.
    + rewrite (run_startup_failed w chat_input s e _ _ He E). cbn [fst].
      split; left; [|reflexivity]. unfold engine_of. cbn. exact He.
Qed.

Lemma run_history w chat_input s :
  history_of (fst (run w chat_input s)) = history_of s
  \/ exists q txt,
       chat_input = Some q /\ q <> ""
       /\ history_of (fst (run w chat_input s))
          = history_of s ++ [user_turn q; assistant_turn txt].
Proof.
  unfold history_of at 1 3.
  destruct (run_store w chat_input s) as [_ [->|(q & txt & Hi & Hq & ->)]].
  - left. reflexivity.
  - right. exists q, txt. repeat split; assumption || reflexivity.
Qed.

(** Every engine a session holds was built by [create_query_engine]. *)
Lemma reachable_engine s :
  reachable s -> forall qe, engine_of s = Some qe -> built_here qe.
Proof.
  induction 1 as [st|w chat_input s Hs IH]; intros qe; [discriminate|].
  destruct (run_store w chat_input s) as [[->|(_ & qe' & -> & Hb)] _].
  - apply IH.
  - intros [= <-]. exact Hb.
Qed.

Lemma well_paired_app h q txt :
  well_paired h = true -> well_paired (h ++ [user_turn q; assistant_turn txt]) = true.
Proof.
  revert h. fix IH 1. intros [|u [|a h]]; cbn; try discriminate; [reflexivity|].
  intros [[-> ->]%andb_prop Hh]%andb_prop. cbn. apply IH, Hh.
Qed.

Lemma reachable_well_paired s : reachable s -> well_paired (history_of s) = true.
Proof.
  induction 1 as [st|w chat_input s Hs IH]; [reflexivity|].
  destruct (run_history w chat_input s) as [->|(q & txt & _ & _ & ->)]; [exact IH|].
  apply well_paired_app, IH.
Qed.

Lemma well_paired_even h : well_paired h = true -> Nat.even (length h) = true.
Proof.
  revert h. fix IH 1. intros [|u [|a h]]; cbn; try discriminate; [reflexivity|].
  intros [_ Hh]%andb_prop. apply IH, Hh.
Qed.

Lemma well_paired_lookup h :
  well_paired h = true ->
  forall (i : nat) m, h !! i = Some m ->
    role m = if Nat.even i then "user" else "assistant".
Proof.
  revert h. fix IH 1. intros [|u [|a h]]; cbn; try discriminate.
  intros [[Hu%String.eqb_eq Ha%String.eqb_eq]%andb_prop Hh]%andb_prop i m.
  destruct i as [|[|i]]; cbn.
  - intros [= <-]. exact Hu.
  - intros [= <-]. exact Ha.
  - apply (IH h Hh i m).
Qed.

(** ** The response text *)

(** C10: [get_response_text] returns on every response object that has a
    [response] attribute, and what it returns is the string
    [str(response.response)]; when the attribute holds [None] that string is
    "None", which is not empty, and nothing is raised. *)
Theorem get_response_text_total (response : Obj) (v : Val) :
  obj_attrs response !! "response" = Some v ->
  get_response_text response = Ok (str v)
  /\ (v = VNone -> get_response_text response = Ok "None" /\ "None" <> "").
Proof.
  intros Hv. unfold get_response_text, getattr. rewrite Hv.
  split; [reflexivity|]. intros ->. split; [reflexivity|discriminate].
Qed.

Lemma get_response_text_total_witness :
  obj_attrs (Sample.response VNone) !! "response" = Some VNone
  /\ get_response_text (Sample.response VNone) = Ok "None".
Proof.
  split; [reflexivity|].
  apply (get_response_text_total (Sample.response VNone) VNone); reflexivity.
Defined.

Example get_response_text_int :
  get_response_text (Sample.response (VInt (-42))) = Ok "-42".
Proof. vm_compute. reflexivity. Qed.

Example get_response_text_no_attribute :
  get_response_text (mkObj "StreamingResponse" ∅)
  = Raise (mkExn "AttributeError"
             "'StreamingResponse' object has no attribute 'response'").
Proof. reflexivity. Qed.

(** ** One query *)

(** The two ways a query ends, for the theorems below. *)
Lemma query_outcome w s qe q :
  engine_of s = Some qe ->
  q <> "" ->
  (exists txt,
     invocation w qe q = Ok txt
     /\ run w (Some q) s
        = (with_turns s [user_turn q; assistant_turn txt],
           page_header ++ answer_view w s qe q txt))
  \/ (exists e,
        invocation w qe q = Raise e
        /\ run w (Some q) s
           = (initialized s, page_header ++ query_error_view w s qe q e)).
Proof.
  intros He Hq. rewrite (run_ready w (Some q) s qe He).
  unfold chat_view. rewrite (truthy_nonempty q Hq).
  destruct (invocation w qe q) as [txt|e]; [left; exists txt|right; exists e];
    split; reflexivity.
Qed.

(** C1: a query that is not empty, submitted to a session that holds the
    engine, ends in one of two ways.  Either the pipeline invocation gives a
    text, which is shown as the assistant's answer and recorded; or it raises,
    and the run shows "Error processing question: ..." with the advice to
    rephrase.  There is no third way. *)
Theorem query_answered_or_error_shown (w : World) (s : Store) (qe : QueryEngine)
    (q : string) :
  engine_of s = Some qe ->
  q <> "" ->
  (exists txt,
     invocation w qe q = Ok txt
     /\ run w (Some q) s
        = (with_turns s [user_turn q; assistant_turn txt],
           page_header ++ answer_view w s qe q txt))
  \/ (exists e,
        invocation w qe q = Raise e
        /\ run w (Some q) s
           = (initialized s, page_header ++ query_error_view w s qe q e)).
Proof.
  intros He Hq.
  pose proof (run_ready w (Some q) s qe He) as R.
  unfold chat_view in R. rewrite (truthy_nonempty q Hq) in R.
  destruct (invocation w qe q) as [txt|e].
  - left. exists txt. split; [reflexivity|exact R].
  - right. exists e. split; [reflexivity|exact R].
Qed.

Lemma query_answered_or_error_shown_witness :
  (exists txt,
     invocation Sample.answering Sample.engine "What does Article 1 establish?" = Ok txt
     /\ run Sample.answering (Some "What does Article 1 establish?") Sample.started
        = (with_turns Sample.started
             [user_turn "What does Article 1 establish?"; assistant_turn txt],
           page_header
             ++ answer_view Sample.answering Sample.started Sample.engine
                  "What does Article 1 establish?" txt))
  \/ (exists e,
        invocation Sample.answering Sample.engine "What does Article 1 establish?" = Raise e
        /\ run Sample.answering (Some "What does Article 1 establish?") Sample.started
           = (initialized Sample.started,
              page_header
                ++ query_error_view Sample.answering Sample.started Sample.engine
                     "What does Article 1 establish?" e)).
Proof.
  apply (query_answered_or_error_shown Sample.answering Sample.started Sample.engine
           "What does Article 1 establish?").
  - vm_compute. reflexivity.
  - discriminate.
Defined.

Lemma script_returns w chat_input s : fst (fst (script w chat_input s)) = Ok tt.
Proof.
  rewrite script_main. unfold main, try_except, bind at 1 2, emit.
  destruct (bind (initialize_system w) _ (initialized s)) as [[[[]|e] s'] t];
    reflexivity.
Qed.

Lemma initialized_idempotent s : initialized (initialized s) = initialized s.
Proof. reflexivity. Qed.

Lemma initialized_history s h :
  chat_history (session_state s) = Some h -> initialized s = s.
Proof.
  destruct s as [st [h0 qe]]. cbn. intros ->. reflexivity.
Qed.

(** Lines 20 and 21 make a run see the store as [initialized] does. *)
Lemma run_initialized w chat_input s :
  run w chat_input (initialized s) = run w chat_input s.
Proof.
  unfold run. rewrite !script_main, initialized_idempotent. reflexivity.
Qed.

Lemma no_system_error_shown h : existsb system_error (map shown h) = false.
Proof.
  induction h as [|m h IH]; [reflexivity|].
  cbn [map existsb]. rewrite IH. unfold shown.
  destruct (String.eqb (role m) "user"); reflexivity.
Qed.

Lemma no_system_error_requests w qe q : existsb system_error (requests w qe q) = false.
Proof.
  unfold requests. induction (fst (engine_query w qe q)) as [|c calls IH];
    [reflexivity|exact IH].
Qed.

Lemma no_system_error_query_view w s qe q :
  existsb system_error (page_header ++ query_view w s qe q) = false.
Proof.
  unfold query_view, idle_view.
  rewrite !existsb_app, no_system_error_shown. cbn.
  rewrite existsb_app, no_system_error_requests. reflexivity.
Qed.

(** C2: when the pipeline invocation of a query raises, the exception is
    caught where the query is processed.  The run ends normally and shows
    "Error processing question: ..." with the advice to rephrase, never the
    system error.  The history, the engine and [Settings] are what they
    were, so every later run behaves as if the failed query had not been
    made; in particular a later query that the services answer is answered
    by the same engine. *)
Theorem query_failure_recovered (w : World) (s : Store) (qe : QueryEngine)
    (q : string) (e : Exn) :
  engine_of s = Some qe ->
  q <> "" ->
  invocation w qe q = Raise e ->
  fst (fst (script w (Some q) s)) = Ok tt
  /\ run w (Some q) s = (initialized s, page_header ++ query_error_view w s qe q e)
  /\ existsb system_error (snd (run w (Some q) s)) = false
  /\ history_of (fst (run w (Some q) s)) = history_of s
  /\ engine_of (fst (run w (Some q) s)) = Some qe
  /\ settings (fst (run w (Some q) s)) = settings s
  /\ (forall w' chat_input,
        run w' chat_input (fst (run w (Some q) s)) = run w' chat_input s)
  /\ (forall w' q' txt,
        q' <> "" ->
        invocation w' qe q' = Ok txt ->
        run w' (Some q') (fst (run w (Some q) s))
        = (with_turns s [user_turn q'; assistant_turn txt],
           page_header ++ answer_view w' s qe q' txt)).
Proof.
  intros He Hq Hi.
  assert (R : run w (Some q) s
              = (initialized s, page_header ++ query_error_view w s qe q e)).
  { destruct (query_outcome w s qe q He Hq)
      as [(txt & Hi' & _)|(e' & Hi' & R)]; rewrite Hi in Hi'; [discriminate|].
    injection Hi' as <-. exact R. }
  rewrite R. cbn [fst snd]. repeat split.
  - apply script_returns.
  - unfold query_error_view. rewrite app_assoc, existsb_app, no_system_error_query_view.
    reflexivity.
  - exact He.
  - intros w' chat_input. apply run_initialized.
  - intros w' q' txt Hq' Hi'. rewrite run_initialized.
    destruct (query_outcome w' s qe q' He Hq')
      as [(txt' & Hi'' & R')|(e' & Hi'' & _)]; rewrite Hi' in Hi''; [|discriminate].
    injection Hi'' as <-. exact R'.
Qed.

Lemma query_failure_recovered_witness :
  run Sample.unreachable (Some "Who appoints the judges?") Sample.started
  = (initialized Sample.started,
     page_header
       ++ query_error_view Sample.unreachable Sample.started Sample.engine
            "Who appoints the judges?" (mkExn "ConnectionError" "service unreachable")).
Proof.
  apply (query_failure_recovered Sample.unreachable Sample.started Sample.engine
           "Who appoints the judges?" (mkExn "ConnectionError" "service unreachable")).
  - vm_compute. reflexivity.
  - discriminate.
  - reflexivity.
Defined.

(** C8: a query whose pipeline invocation raises leaves the store, and so
    the chat history, exactly as it was: neither the user's turn nor an
    assistant turn is appended.  The history changes only when the
    invocation has given a text, which is then shown and recorded with the
    query, in that order, after all that was there. *)
Theorem failed_query_keeps_history (w : World) (s : Store) (h : list Message)
    (qe : QueryEngine) (q : string) :
  chat_history (session_state s) = Some h ->
  engine_of s = Some qe ->
  q <> "" ->
  (forall e, invocation w qe q = Raise e ->
     fst (run w (Some q) s) = s
     /\ chat_history (session_state (fst (run w (Some q) s))) = Some h)
  /\ (chat_history (session_state (fst (run w (Some q) s))) <> Some h ->
      exists txt,
        invocation w qe q = Ok txt
        /\ ChatMarkdown "assistant" txt ∈ snd (run w (Some q) s)
        /\ chat_history (session_state (fst (run w (Some q) s)))
           = Some (h ++ [user_turn q; assistant_turn txt])).
Proof.
  intros Hh He Hq.
  assert (Hl : history_of s = h) by (unfold history_of; rewrite Hh; reflexivity).
  destruct (query_outcome w s qe q He Hq) as [(txt & Hi & R)|(e & Hi & R)];
    rewrite R; cbn [fst snd]; rewrite ?(initialized_history s h Hh).
  - split; [intros e He'; rewrite Hi in He'; discriminate|].
    intros _. exists txt. split; [exact Hi|]. split.
    + unfold answer_view. rewrite !elem_of_app. right. right. apply list_elem_of_singleton.
      reflexivity.
    + unfold with_turns; cbn. rewrite Hl. reflexivity.
  - split; [auto|]. intros Hne. contradiction.
Qed.

Lemma failed_query_keeps_history_witness :
  fst (run Sample.unreachable (Some "Who appoints the judges?") Sample.started)
  = Sample.started.
Proof.
  destruct (failed_query_keeps_history Sample.unreachable Sample.started []
              Sample.engine "Who appoints the judges?") as [H _].
  - vm_compute. reflexivity.
  - vm_compute. reflexivity.
  - discriminate.
  - exact (proj1 (H (mkExn "ConnectionError" "service unreachable") eq_refl)).
Defined.

(** ** The chat history *)

(** C9: in every store a session can reach, the chat history holds whole
    pairs: its length is even, the entry at an even position has the role
    "user" and the one at an odd position the role "assistant".  A run
    leaves the history alone or appends one such pair, the query and then
    its answer. *)
Theorem history_pairing (s : Store) :
  reachable s ->
  well_paired (history_of s) = true
  /\ Nat.even (length (history_of s)) = true
  /\ (forall (i : nat) m, history_of s !! i = Some m ->
        role m = if Nat.even i then "user" else "assistant")
  /\ (forall w chat_input,
        history_of (fst (run w chat_input s)) = history_of s
        \/ exists q txt,
             chat_input = Some q /\ q <> ""
             /\ history_of (fst (run w chat_input s))
                = history_of s ++ [mkMessage "user" q; mkMessage "assistant" txt]).
Proof.
  intros Hs. pose proof (reachable_well_paired s Hs) as Hp.
  split; [exact Hp|]. split; [exact (well_paired_even _ Hp)|].
  split; [exact (well_paired_lookup _ Hp)|].
  intros w chat_input. apply run_history.
Qed.

Lemma history_pairing_witness :
  well_paired
    (history_of (fst (run Sample.answering (Some "What does Article 1 establish?")
                        Sample.started))) = true.
Proof.
  apply (history_pairing
           (fst (run Sample.answering (Some "What does Article 1 establish?")
                   Sample.started))).
  unfold Sample.started. do 2 apply reachable_run. apply reachable_new.
Defined.

Example history_after_one_answer :
  history_of (fst (run Sample.answering (Some "What does Article 1 establish?")
                     Sample.started))
  = [mkMessage "user" "What does Article 1 establish?";
     mkMessage "assistant" "Article 1 establishes the legislature."].
Proof. vm_compute. reflexivity. Qed.

Lemma extend_chat_history_with_turns s h turns :
  chat_history (session_state s) = Some h ->
  extend_chat_history turns s = (Ok tt, with_turns s turns, []).
Proof.
  destruct s as [st [h0 qe]]. cbn. intros ->. reflexivity.
Qed.

Lemma with_turns_nil s h :
  chat_history (session_state s) = Some h -> with_turns s [] = s.
Proof.
  destruct s as [st [h0 qe]]. cbn. intros ->. unfold with_turns. cbn.
  rewrite app_nil_r. reflexivity.
Qed.

Lemma with_turns_twice s a b : with_turns (with_turns s a) b = with_turns s (a ++ b).
Proof.
  unfold with_turns. cbn. rewrite app_assoc. reflexivity.
Qed.

Lemma for_each_extend batches : forall s h,
  chat_history (session_state s) = Some h ->
  for_each batches extend_chat_history s = (Ok tt, with_turns s (concat batches), []).
Proof.
  induction batches as [|b batches IH]; intros s h Hh.
  - cbn. rewrite (with_turns_nil s h Hh). reflexivity.
  - cbn [for_each concat].
    rewrite (bind_ok _ _ _ _ _ _ (extend_chat_history_with_turns s h b Hh)).
    rewrite (IH (with_turns s b) (history_of s ++ b) eq_refl), with_turns_twice.
    reflexivity.
Qed.

Lemma session_history_prefix steps : forall s,
  history_of s `prefix_of` history_of (session steps s).
Proof.
  induction steps as [|[w chat_input] steps IH]; intros s; [reflexivity|].
  cbn [session]. etransitivity; [|apply IH].
  destruct (run_history w chat_input s) as [->|(q & txt & _ & _ & ->)];
    [reflexivity|apply prefix_app_r; reflexivity].
Qed.

Lemma well_paired_roles h :
  well_paired h = true ->
  Forall (fun m => role m = "user" \/ role m = "assistant") h.
Proof.
  intros Hp. apply Forall_lookup. intros i m Hm.
  rewrite (well_paired_lookup h Hp i m Hm). destruct (Nat.even i); auto.
Qed.

(** A turn whose role is one of the two is displayed as it is. *)
Lemma bubble_shown m :
  role m = "user" \/ role m = "assistant" -> bubble (shown m) = Some m.
Proof.
  destruct m as [r c]. cbn. unfold shown. cbn. intros [->| ->]; reflexivity.
Qed.

Lemma transcript_shown h placeholder rest :
  Forall (fun m => role m = "user" \/ role m = "assistant") h ->
  transcript (map shown h ++ ChatInput placeholder :: rest) = h.
Proof.
  induction 1 as [|m h Hm Hh IH]; [reflexivity|].
  cbn [map app transcript]. pose proof (bubble_shown m Hm) as Hb.
  destruct (shown m); try discriminate Hb; rewrite Hb, IH; reflexivity.
Qed.

Lemma chat_view_begins w s qe chat_input :
  exists rest,
    snd (chat_view w s qe chat_input)
    = map shown (history_of s) ++ ChatInput "Ask about products..." :: rest.
Proof.
  unfold chat_view.
  destruct chat_input as [q|]; [|exists []; reflexivity].
  destruct (truthy (Some q)); [|exists []; reflexivity].
  destruct (invocation w qe q) as [txt|e]; cbn [snd];
    unfold answer_view, query_error_view, query_view, idle_view;
    eexists; trace_eq.
Qed.

(** C3: the chat history keeps insertion order.  Whatever batches of turns
    are appended with [extend], reading the history gives the turns it held
    followed by the new ones, batch after batch, each turn as it was given.
    Over any further runs of the session the history only grows at its end.
    And the loop that reads it back displays its turns one by one from the
    first to the last. *)
Theorem history_insertion_order (s : Store) (qe : QueryEngine) :
  reachable s ->
  engine_of s = Some qe ->
  (forall batches,
     fst (fst ((for_each batches extend_chat_history ;; read_chat_history)
                 (initialized s)))
     = Ok (history_of s ++ concat batches))
  /\ (forall steps, history_of s `prefix_of` history_of (session steps s))
  /\ (forall w chat_input, transcript (snd (run w chat_input s)) = history_of s).
Proof.
  intros Hs He. split; [|split].
  - intros batches.
    rewrite (bind_ok _ _ _ _ _ _ (for_each_extend batches (initialized s) _ eq_refl)).
    reflexivity.
  - intros steps. apply session_history_prefix.
  - intros w chat_input. rewrite (run_ready w chat_input s qe He). cbn [snd].
    destruct (chat_view_begins w s qe chat_input) as [rest ->].
    cbn [page_header app transcript bubble].
    apply transcript_shown, well_paired_roles, reachable_well_paired, Hs.
Qed.

Lemma history_insertion_order_witness :
  transcript
    (snd (run Sample.unreachable (Some "Who appoints the judges?")
            (fst (run Sample.answering (Some "What does Article 1 establish?")
                    Sample.started))))
  = history_of (fst (run Sample.answering (Some "What does Article 1 establish?")
                       Sample.started)).
Proof.
  apply (history_insertion_order
           (fst (run Sample.answering (Some "What does Article 1 establish?")
                   Sample.started))
           Sample.engine).
  - unfold Sample.started. do 2 apply reachable_run. apply reachable_new.
  - vm_compute. reflexivity.
Defined.

(** ** The requests of a run *)

(** The remote requests of a run are those of one call of the engine's
    [query], made for an input that is not empty on an engine built by
    [create_query_engine]; otherwise there are none. *)
Lemma run_remote_calls w chat_input s :
  reachable s ->
  remote_calls (snd (run w chat_input s)) = []
  \/ exists qe q,
       built_here qe /\ chat_input = Some q /\ q <> ""
       /\ (forall qe', engine_of s = Some qe' -> qe' = qe)
       /\ remote_calls (snd (run w chat_input s)) = fst (engine_query w qe q).
Proof.
  intros Hs.
  assert (Hview : forall s' qe t0,
            built_here qe -> remote_calls t0 = [] ->
            (forall qe', engine_of s = Some qe' -> qe' = qe) ->
            remote_calls (t0 ++ snd (chat_view w s' qe chat_input)) = []
            \/ exists qe0 q,
                 built_here qe0 /\ chat_input = Some q /\ q <> ""
                 /\ (forall qe', engine_of s = Some qe' -> qe' = qe0)
                 /\ remote_calls (t0 ++ snd (chat_view w s' qe chat_input))
                    = fst (engine_query w qe0 q)).
  { intros s' qe t0 Hb Ht0 Hsame.
    rewrite remote_calls_app, Ht0, chat_view_remote_calls. cbn [app].
    destruct chat_input as [q|]; [|left; reflexivity].
    destruct (truthy (Some q)) eqn:Ht; [|left; reflexivity].
    destruct (truthy_inv _ Ht) as (q' & [= <-] & Hq).
    right. exists qe, q. repeat split; assumption || reflexivity. }
  destruct (engine_of s) as [qe|] eqn:He.
  - rewrite (run_ready w chat_input s qe He). cbn [snd].
    apply Hview; [exact (reachable_engine s Hs qe He)|reflexivity|].
    intros qe' [= <-]. reflexivity.
  - destruct (startup_frame w (initialized s)) as (r & st' & t & E & Ht & Hb).
    destruct r as [qe|e].
    + rewrite (run_started w chat_input s qe _ _ He E). cbn [snd].
      apply Hview; [apply Hb; reflexivity| |discriminate].
      unfold started_view. cbn [page_header app remote_calls omap].
      change (remote_calls (t ++ [SpinnerExit; Success "System initialized successfully!"]) = []).
      rewrite remote_calls_app, (remote_calls_startup t Ht). reflexivity.
    + left. rewrite (run_startup_failed w chat_input s e _ _ He E). cbn [snd].
      unfold system_error_view. cbn [page_header app].
      change (remote_calls
                (t ++ [SpinnerExit; Error ("System Error: " +:+ exn_str e);
                       Warning "Please check your configuration and try again."]) = []).
      rewrite remote_calls_app, (remote_calls_startup t Ht). reflexivity.
Qed.

(** No remote request is made for an input that is absent or empty. *)
Lemma run_remote_calls_idle w chat_input s :
  reachable s -> truthy chat_input = false -> remote_calls (snd (run w chat_input s)) = [].
Proof.
  intros Hs Ht.
  destruct (run_remote_calls w chat_input s Hs) as [H|(qe & q & _ & -> & Hq & _)];
    [exact H|].
  rewrite (truthy_nonempty q Hq) in Ht. discriminate.
Qed.

(** The template with both fields filled. *)
Lemma format_default_prompt context q :
  Pipeline.format DEFAULT_TEXT_QA_PROMPT
    {[ "context_str" := context; "query_str" := q ]}
  = Ok (rendered_prompt context q).
Proof.
  vm_compute. reflexivity.
Qed.

(** ** The pipeline behind [query] *)

Lemma answer_calls sv qe q :
  built_here qe -> fst (Pipeline.answer sv qe q) = pipeline_calls sv q.
Proof.
  intros [index ->]. unfold Pipeline.answer, pipeline_calls.
  cbn [similarity_top_k text_qa_template].
  destruct (Pipeline.embed sv q) as [v|e]; [|reflexivity].
  destruct (Pipeline.search sv v 7) as [chunks|e]; [|reflexivity].
  unfold Pipeline.synthesize. rewrite format_default_prompt. reflexivity.
Qed.

Lemma answer_response sv qe q v chunks a :
  built_here qe ->
  Pipeline.embed sv q = Ok v ->
  Pipeline.search sv v 7 = Ok chunks ->
  Pipeline.complete sv (rendered_prompt (Pipeline.context_block sv chunks) q) = Ok a ->
  snd (Pipeline.answer sv qe q) = Ok (mkObj "Response" {[ "response" := a ]}).
Proof.
  intros [index ->] Hv Hc Ha. unfold Pipeline.answer.
  cbn [similarity_top_k text_qa_template]. rewrite Hv, Hc.
  unfold Pipeline.synthesize. rewrite format_default_prompt, Ha. reflexivity.
Qed.

Lemma pipeline_calls_search sv q k : Search k ∈ pipeline_calls sv q -> k = 7.
Proof.
  unfold pipeline_calls.
  destruct (Pipeline.embed sv q) as [v|e];
    [destruct (Pipeline.search sv v 7) as [chunks|e]|];
    intros H;
    repeat (apply elem_of_cons in H as [H|H];
            [try discriminate H; try (injection H as ->; reflexivity)|]);
    apply elem_of_nil in H; contradiction.
Qed.

Lemma pipeline_calls_complete sv q p :
  Complete p ∈ pipeline_calls sv q ->
  exists chunks, p = rendered_prompt (Pipeline.context_block sv chunks) q.
Proof.
  unfold pipeline_calls.
  destruct (Pipeline.embed sv q) as [v|e];
    [destruct (Pipeline.search sv v 7) as [chunks|e]|];
    intros H;
    repeat (apply elem_of_cons in H as [H|H];
            [try discriminate H; try (injection H as ->; eexists; reflexivity)|]);
    apply elem_of_nil in H; contradiction.
Qed.

(** The requests of a run in a world whose engine is the pipeline. *)
Lemma pipeline_run_calls env fails sv chat_input s :
  reachable s ->
  remote_calls (snd (run (Pipeline.world env fails sv) chat_input s)) = []
  \/ exists q,
       chat_input = Some q /\ q <> ""
       /\ remote_calls (snd (run (Pipeline.world env fails sv) chat_input s))
          = pipeline_calls sv q.
Proof.
  intros Hs.
  destruct (run_remote_calls (Pipeline.world env fails sv) chat_input s Hs)
    as [H|(qe & q & Hb & Hi & Hq & _ & H)]; [left; exact H|].
  right. exists q. repeat split; try assumption.
  rewrite H. cbn [engine_query Pipeline.world]. apply answer_calls, Hb.
Qed.

(** C4: every engine a session holds has [similarity_top_k = 7], and every
    search request of every run, whatever the query and the state of the
    services, asks for 7 results. *)
Theorem retrieval_top_k_fixed (s : Store) :
  reachable s ->
  (forall qe, engine_of s = Some qe -> similarity_top_k qe = 7)
  /\ (forall env fails sv chat_input k,
        Search k ∈ remote_calls (snd (run (Pipeline.world env fails sv) chat_input s)) ->
        k = 7).
Proof.
  intros Hs. split.
  - intros qe He. destruct (reachable_engine s Hs qe He) as [index ->]. reflexivity.
  - intros env fails sv chat_input k.
    destruct (pipeline_run_calls env fails sv chat_input s Hs) as [->|(q & _ & _ & ->)].
    + intros H. apply elem_of_nil in H. contradiction.
    + apply pipeline_calls_search.
Qed.

Lemma retrieval_top_k_fixed_witness :
  reachable Sample.started
  /\ engine_of Sample.started = Some Sample.engine
  /\ similarity_top_k Sample.engine = 7.
Proof.
  assert (Hs : reachable Sample.started).
  { unfold Sample.started. apply reachable_run, reachable_new. }
  assert (He : engine_of Sample.started = Some Sample.engine).
  { vm_compute. reflexivity. }
  split; [exact Hs|]. split; [exact He|].
  exact (proj1 (retrieval_top_k_fixed Sample.started Hs) Sample.engine He).
Defined.

Example retrieving_calls :
  remote_calls
    (snd (run Sample.retrieving (Some "What does Article 1 establish?") Sample.started))
  = [Embed "What does Article 1 establish?"; Search 7;
     Complete (rendered_prompt "Article 1 establishes the legislature."
                 "What does Article 1 establish?")].
Proof. vm_compute. reflexivity. Qed.

(** C5: the steps of answering come in one order.  The input is checked
    first: for an absent or empty input no remote request is made.  For any
    other query the requests are: embed the query; then, if that succeeded,
    search with k = 7; then, if that succeeded, complete the prompt rendered
    from the query and the chunks found.  When the three succeed the text of
    the model is the answer that the run shows and records. *)
Theorem pipeline_steps_in_order (env : gmap string string)
    (fails : LibCall -> option Exn) (sv : Pipeline.Services) (s : Store)
    (qe : QueryEngine) :
  reachable s ->
  engine_of s = Some qe ->
  (forall chat_input,
     truthy chat_input = false ->
     remote_calls (snd (run (Pipeline.world env fails sv) chat_input s)) = [])
  /\ (forall q,
        q <> "" ->
        remote_calls (snd (run (Pipeline.world env fails sv) (Some q) s))
        = match Pipeline.embed sv q with
          | Ok v =>
              match Pipeline.search sv v 7 with
              | Ok chunks =>
                  [Embed q; Search 7;
                   Complete (rendered_prompt (Pipeline.context_block sv chunks) q)]
              | Raise _ => [Embed q; Search 7]
              end
          | Raise _ => [Embed q]
          end)
  /\ (forall q v chunks a,
        q <> "" ->
        Pipeline.embed sv q = Ok v ->
        Pipeline.search sv v 7 = Ok chunks ->
        Pipeline.complete sv (rendered_prompt (Pipeline.context_block sv chunks) q) = Ok a ->
        run (Pipeline.world env fails sv) (Some q) s
        = (with_turns s [user_turn q; assistant_turn (str a)],
           page_header ++ answer_view (Pipeline.world env fails sv) s qe q (str a))).
Proof.
  intros Hs He. pose proof (reachable_engine s Hs qe He) as Hb.
  split; [|split].
  - intros chat_input Ht. apply run_remote_calls_idle; assumption.
  - intros q Hq. rewrite (run_ready _ (Some q) s qe He). cbn [snd].
    rewrite remote_calls_app, chat_view_remote_calls, (truthy_nonempty q Hq).
    cbn [engine_query Pipeline.world]. rewrite (answer_calls sv qe q Hb).
    reflexivity.
  - intros q v chunks a Hq Hv Hc Ha.
    destruct (query_outcome (Pipeline.world env fails sv) s qe q He Hq)
      as [(txt & Hi & R)|(e & Hi & _)];
      unfold invocation in Hi; cbn [engine_query Pipeline.world] in Hi;
      rewrite (answer_response sv qe q v chunks a Hb Hv Hc Ha) in Hi.
    + injection Hi as <-. exact R.
    + discriminate Hi.
Qed.

Lemma pipeline_steps_in_order_witness :
  reachable Sample.started
  /\ engine_of Sample.started = Some Sample.engine
  /\ remote_calls
       (snd (run (Pipeline.world Sample.env Sample.never_fails Sample.services)
               (Some "What does Article 1 establish?") Sample.started))
     = [Embed "What does Article 1 establish?"; Search 7;
        Complete (rendered_prompt "Article 1 establishes the legislature."
                    "What does Article 1 establish?")].
Proof.
  assert (Hs : reachable Sample.started).
  { unfold Sample.started. apply reachable_run, reachable_new. }
  assert (He : engine_of Sample.started = Some Sample.engine).
  { vm_compute. reflexivity. }
  split; [exact Hs|]. split; [exact He|].
  destruct (pipeline_steps_in_order Sample.env Sample.never_fails Sample.services
              Sample.started Sample.engine Hs He) as (_ & H & _).
  rewrite (H "What does Article 1 establish?"); [reflexivity|discriminate].
Defined.

(** C6: the prompt is rendered from one template.  Every engine a session
    holds carries [DEFAULT_TEXT_QA_PROMPT]; its text has the two fields
    [{context_str}] and [{query_str}] and tells the model to answer from the
    context and not from prior knowledge; filling the fields with a context
    and a query gives the same text around them for every query; and every
    prompt a run sends to the model is that text around the context block of
    some chunks and the query of the run.  For every query that is not empty
    and whose embedding and search succeed, the run sends exactly one prompt:
    that text around the texts of the chunks the search returned, joined in
    the order received, and around the query; and what the model completes
    it with is the answer the run shows and records. *)
Theorem prompt_template_fixed (s : Store) :
  reachable s ->
  (forall qe, engine_of s = Some qe -> text_qa_template qe = DEFAULT_TEXT_QA_PROMPT)
  /\ contains "{context_str}" (template DEFAULT_TEXT_QA_PROMPT) = true
  /\ contains "{query_str}" (template DEFAULT_TEXT_QA_PROMPT) = true
  /\ contains
       ("Given the context information and not prior knowledge, " +:+
        "Only answer questions that you can answer based on the context.")
       (template DEFAULT_TEXT_QA_PROMPT) = true
  /\ (forall context q,
        Pipeline.format DEFAULT_TEXT_QA_PROMPT
          {[ "context_str" := context; "query_str" := q ]}
        = Ok (rendered_prompt context q))
  /\ (forall env fails sv chat_input p,
        Complete p ∈ remote_calls (snd (run (Pipeline.world env fails sv) chat_input s)) ->
        exists q chunks,
          chat_input = Some q
          /\ p = rendered_prompt (Pipeline.context_block sv chunks) q)
  /\ (forall env fails sv qe q v chunks,
        engine_of s = Some qe ->
        q <> "" ->
        Pipeline.embed sv q = Ok v ->
        Pipeline.search sv v 7 = Ok chunks ->
        remote_calls (snd (run (Pipeline.world env fails sv) (Some q) s))
        = [Embed q; Search 7;
           Complete
             (rendered_prompt
                (String.concat (Pipeline.chunk_separator sv) (map Pipeline.text chunks))
                q)]
        /\ (forall p,
              Complete p
                ∈ remote_calls (snd (run (Pipeline.world env fails sv) (Some q) s)) ->
              p = rendered_prompt
                    (String.concat (Pipeline.chunk_separator sv) (map Pipeline.text chunks))
                    q)
        /\ (forall a,
              Pipeline.complete sv
                (rendered_prompt
                   (String.concat (Pipeline.chunk_separator sv) (map Pipeline.text chunks))
                   q) = Ok a ->
              run (Pipeline.world env fails sv) (Some q) s
              = (with_turns s [user_turn q; assistant_turn (str a)],
                 page_header
                   ++ answer_view (Pipeline.world env fails sv) s qe q (str a))))
  /\ (forall env fails sv qe q,
        engine_of s = Some qe ->
        q <> "" ->
        (forall v, Pipeline.embed sv q = Ok v ->
           exists e, Pipeline.search sv v 7 = Raise e) ->
        forall p,
          Complete p
            ∉ remote_calls (snd (run (Pipeline.world env fails sv) (Some q) s))).
Proof.
  intros Hs.
  assert (Hcalls : forall env fails sv qe q,
            engine_of s = Some qe -> q <> "" ->
            remote_calls (snd (run (Pipeline.world env fails sv) (Some q) s))
            = pipeline_calls sv q).
  { intros env fails sv qe q He Hq.
    rewrite (run_ready _ (Some q) s qe He). cbn [snd].
    rewrite remote_calls_app, chat_view_remote_calls, (truthy_nonempty q Hq).
    cbn [engine_query Pipeline.world].
    rewrite (answer_calls sv qe q (reachable_engine s Hs qe He)). reflexivity. }
  split; [|split; [|split; [|split; [|split; [|split; [|split]]]]]].
  - intros qe He. destruct (reachable_engine s Hs qe He) as [index ->]. reflexivity.
  - vm_compute. reflexivity.
  - vm_compute. reflexivity.
  - vm_compute. reflexivity.
  - intros context q. apply format_default_prompt.
  - intros env fails sv chat_input p.
    destruct (pipeline_run_calls env fails sv chat_input s Hs) as [->|(q & -> & _ & ->)].
    + intros H. apply elem_of_nil in H. contradiction.
    + intros [chunks ->]%pipeline_calls_complete. exists q, chunks. split; reflexivity.
  - intros env fails sv qe q v chunks He Hq Hv Hc.
    assert (R : remote_calls (snd (run (Pipeline.world env fails sv) (Some q) s))
                = [Embed q; Search 7;
                   Complete
                     (rendered_prompt
                        (String.concat (Pipeline.chunk_separator sv)
                           (map Pipeline.text chunks)) q)]).
    { rewrite (Hcalls env fails sv qe q He Hq). unfold pipeline_calls.
      rewrite Hv, Hc. reflexivity. }
    split; [exact R|]. split.
    + intros p. rewrite R. intros H.
      repeat (apply elem_of_cons in H as [H|H];
              [try discriminate H; try (injection H as ->; reflexivity)|]).
      apply elem_of_nil in H. contradiction.
    + intros a Ha.
      destruct (query_outcome (Pipeline.world env fails sv) s qe q He Hq)
        as [(txt & Hi & R')|(e & Hi & _)];
        unfold invocation in Hi; cbn [engine_query Pipeline.world] in Hi;
        rewrite (answer_response sv qe q v chunks a
                   (reachable_engine s Hs qe He) Hv Hc Ha) in Hi.
      * injection Hi as <-. exact R'.
      * discriminate Hi.
  - intros env fails sv qe q He Hq Hfail p.
    rewrite (Hcalls env fails sv qe q He Hq). unfold pipeline_calls.
    destruct (Pipeline.embed sv q) as [v|e] eqn:Hv.
    + destruct (Hfail v eq_refl) as [e ->].
      intros H.
      repeat (apply elem_of_cons in H as [H|H]; [discriminate H|]).
      apply elem_of_nil in H. contradiction.
    + intros H.
      repeat (apply elem_of_cons in H as [H|H]; [discriminate H|]).
      apply elem_of_nil in H. contradiction.
Qed.

Lemma prompt_template_fixed_witness :
  reachable Sample.started
  /\ engine_of Sample.started = Some Sample.engine
  /\ text_qa_template Sample.engine = DEFAULT_TEXT_QA_PROMPT
  /\ remote_calls
       (snd (run (Pipeline.world Sample.env Sample.never_fails Sample.services)
               (Some "What does Article 1 establish?") Sample.started))
     = [Embed "What does Article 1 establish?"; Search 7;
        Complete
          (rendered_prompt
             (String.concat (Pipeline.chunk_separator Sample.services)
                (map Pipeline.text
                   [Pipeline.mkChunk "Article 1 establishes the legislature." 9 ∅]))
             "What does Article 1 establish?")].
Proof.
  assert (Hs : reachable Sample.started).
  { unfold Sample.started. apply reachable_run, reachable_new. }
  assert (He : engine_of Sample.started = Some Sample.engine).
  { vm_compute. reflexivity. }
  split; [exact Hs|]. split; [exact He|].
  destruct (prompt_template_fixed Sample.started Hs)
    as (H1 & _ & _ & _ & _ & _ & H7 & _).
  split; [exact (H1 Sample.engine He)|].
  apply (H7 Sample.env Sample.never_fails Sample.services Sample.engine
           "What does Article 1 establish?" [1; 2; 3]
           [Pipeline.mkChunk "Article 1 establishes the legislature." 9 ∅] He).
  - discriminate.
  - reflexivity.
  - reflexivity.
Defined.

(** ** Start-up *)

Ltac startup_cases :=
  unfold startup, initialize_chatbot, create_query_engine, try_except, bind, lib_call,
    emit, lift, raise, ret, set_settings, get, put, environ_get;
  cbn [settings session_state];
  repeat match goal with
  | |- context [match ?x with Some _ => _ | None => _ end] => destruct x eqn:?
  | |- _ => progress cbn
  end.

(** Start-up begins by loading the environment file. *)
Lemma startup_begins w s :
  exists t, snd (startup w s) = LoadDotenv :: t.
Proof.
  destruct s as [st ss]. startup_cases; eexists; reflexivity.
Qed.

(** A library call of start-up that fails makes start-up raise what the
    call raised: the clients of the language model, of the embedding model
    and of the vector store are among them. *)
Lemma startup_failed_call w s c e :
  Lib c ∈ snd (startup w s) ->
  lib_fails w c = Some e ->
  fst (fst (startup w s)) = Raise e.
Proof.
  destruct s as [st ss]. startup_cases; intros H Hf;
    repeat (apply elem_of_cons in H as [H|H];
            [try discriminate H; try (injection H as ->; congruence)|]);
    apply elem_of_nil in H; contradiction.
Qed.

Example llm_client_failure :
  fst (fst (startup Sample.llm_down (initialized Sample.new_session)))
  = Raise (mkExn "ServiceUnavailable" "503 model is overloaded").
Proof. vm_compute. reflexivity. Qed.

Example missing_credential :
  run Sample.unconfigured None Sample.new_session
  = (initialized Sample.new_session,
     page_header
       ++ [SpinnerEnter "Initializing system..."; LoadDotenv;
           LogError "Error initializing chatbot: 'GOOGLE_API_KEY'"; SpinnerExit;
           Error "System Error: 'GOOGLE_API_KEY'";
           Warning "Please check your configuration and try again."]).
Proof. vm_compute. reflexivity. Qed.

(** C7, as the specification states it, does not hold: a session whose
    start-up failed because the language-model client could not be built has
    no query engine after that run, but its next run builds one. *)
Lemma startup_failure_not_fatal :
  fst (fst (startup Sample.llm_down (initialized Sample.new_session)))
  = Raise (mkExn "ServiceUnavailable" "503 model is overloaded")
  /\ engine_of (fst (run Sample.llm_down None Sample.new_session)) = None
  /\ engine_of
       (session [(Sample.answering, None)]
          (fst (run Sample.llm_down None Sample.new_session)))
     = Some Sample.engine
  /\ ~ fatal_to_session Sample.llm_down None Sample.new_session.
Proof.
  split; [vm_compute; reflexivity|]. split; [vm_compute; reflexivity|].
  split; [vm_compute; reflexivity|].
  intros H. specialize (H [(Sample.answering, None)]).
  vm_compute in H. discriminate H.
Qed.

(** C7, amended: a start-up that raises ends the run it is part of.  The
    run shows "System Error: ..." and the warning to check the configuration
    and try again, after the events of that one attempt; no query engine is
    stored, the history is untouched, the chat interface is not shown and no
    query is processed.  The next run of the session attempts start-up
    again, and stores the engine if the attempt succeeds. *)
Theorem startup_failure_aborts_run (w : World) (chat_input : option string)
    (s : Store) (e : Exn) (s1 : Store) (t1 : list Event) :
  engine_of s = None ->
  startup w (initialized s) = (Raise e, s1, t1) ->
  run w chat_input s = (s1, system_error_view t1 e)
  /\ engine_of s1 = None
  /\ history_of s1 = history_of s
  /\ (forall placeholder, ChatInput placeholder ∉ snd (run w chat_input s))
  /\ transcript (snd (run w chat_input s)) = []
  /\ remote_calls (snd (run w chat_input s)) = []
  /\ (forall w' chat_input', exists t,
        snd (run w' chat_input' s1)
        = page_header ++ SpinnerEnter "Initializing system..." :: LoadDotenv :: t)
  /\ (forall w' chat_input' qe s2 t2,
        startup w' (initialized s1) = (Ok qe, s2, t2) ->
        engine_of (fst (run w' chat_input' s1)) = Some qe).
Proof.
  intros He E.
  destruct (startup_frame w (initialized s)) as (r & st' & t & E' & Ht & _).
  rewrite E in E'. injection E' as _ Hs1 <-.
  rewrite (run_startup_failed w chat_input s e _ _ He E). cbn [fst snd].
  assert (He1 : engine_of s1 = None) by (rewrite Hs1; exact He).
  split; [reflexivity|]. split; [exact He1|].
  split; [rewrite Hs1; reflexivity|].
  split; [|split; [|split; [|split]]].
  - intros placeholder. unfold system_error_view. cbn [page_header app].
    rewrite !not_elem_of_cons, not_elem_of_app, !not_elem_of_cons.
    repeat split; try discriminate; try apply not_elem_of_nil.
    intros Hin. rewrite forallb_forall in Ht.
    apply list_elem_of_In, Ht in Hin. discriminate Hin.
  - unfold system_error_view. cbn [page_header app transcript bubble].
    clear E. induction t1 as [|ev t1 IH]; [reflexivity|].
    cbn [forallb] in Ht. apply andb_prop in Ht as [Hev Ht].
    destruct ev; try discriminate Hev; exact (IH Ht).
  - unfold system_error_view. cbn [page_header app].
    change (remote_calls
              (t1 ++ [SpinnerExit; Error ("System Error: " +:+ exn_str e);
                      Warning "Please check your configuration and try again."]) = []).
    rewrite remote_calls_app, (remote_calls_startup t1 Ht). reflexivity.
  - intros w' chat_input'.
    destruct (startup w' (initialized s1)) as [[[qe|e'] s2] t2] eqn:E2;
      destruct (startup_begins w' (initialized s1)) as [t' Ht'];
      rewrite E2 in Ht'; cbn [snd] in Ht'; subst t2.
    + eexists. rewrite (run_started w' chat_input' s1 qe _ _ He1 E2). cbn [snd].
      unfold started_view. trace_eq.
    + eexists. rewrite (run_startup_failed w' chat_input' s1 e' _ _ He1 E2). cbn [snd].
      unfold system_error_view. trace_eq.
  - intros w' chat_input' qe s2 t2 E2.
    rewrite (run_started w' chat_input' s1 qe _ _ He1 E2). cbn [fst].
    destruct (chat_view_store w' (with_engine s2 qe) qe chat_input')
      as [->|(q & txt & _ & _ & _ & ->)]; reflexivity.
Qed.

Lemma startup_failure_aborts_run_witness :
  engine_of (fst (run Sample.llm_down None Sample.new_session)) = None.
Proof.
  destruct (startup Sample.llm_down (initialized Sample.new_session))
    as [[r s1] t1] eqn:E.
  assert (Hr : r = Raise (mkExn "ServiceUnavailable" "503 model is overloaded")).
  { change r with (fst (fst (r, s1, t1))). rewrite <- E. vm_compute. reflexivity. }
  subst r.
  destruct (startup_failure_aborts_run Sample.llm_down None Sample.new_session _ s1 t1
              eq_refl E) as (R & He & _).
  rewrite R. exact He.
Defined.

(** * Further properties of the source *)

(** ** Runs that end normally *)

(** X1: [main] lets no exception escape.  Whatever the services and the
    library do, whatever the input and the store, also a store without the
    [chat_history] attribute, the outer [except] turns what is raised into
    the system error, and [main] and the script return normally. *)
Theorem main_never_raises (w : World) (chat_input : option string) (s : Store) :
  fst (fst (main w chat_input s)) = Ok tt
  /\ fst (fst (script w chat_input s)) = Ok tt
  /\ (chat_history (session_state s) = None ->
      engine_of s <> None ->
      exists body,
        snd (main w chat_input s)
        = page_header
            ++ [Error ("System Error: " +:+ body);
                Warning "Please check your configuration and try again."]).
Proof.
  assert (Hmain : forall s0, fst (fst (main w chat_input s0)) = Ok tt).
  { intros s0. unfold main, try_except, bind at 1 2, emit.
    destruct (bind (initialize_system w) _ s0) as [[[[]|e] s'] t]; reflexivity. }
  split; [apply Hmain|]. split; [rewrite script_main; apply Hmain|].
  intros Hh He. destruct (engine_of s) as [qe|] eqn:Hq; [clear He|contradiction].
  rewrite (main_ready w chat_input s qe Hq).
  destruct s as [st [h e0]]. cbn in Hh. subst h.
  eexists. reflexivity.
Qed.

Lemma main_never_raises_witness :
  fst (fst (main Sample.answering (Some "Hello")
              (mkStore (mkSettings None None)
                 (mkSessionState None (Some Sample.engine))))) = Ok tt
  /\ exists body,
       snd (main Sample.answering (Some "Hello")
              (mkStore (mkSettings None None)
                 (mkSessionState None (Some Sample.engine))))
       = page_header
           ++ [Error ("System Error: " +:+ body);
               Warning "Please check your configuration and try again."].
Proof.
  destruct (main_never_raises Sample.answering (Some "Hello")
              (mkStore (mkSettings None None)
                 (mkSessionState None (Some Sample.engine)))) as (H1 & _ & H3).
  split; [exact H1|]. apply H3; [reflexivity|discriminate].
Defined.

(** ** A session that holds the engine *)

Lemma no_startup_event_shown h : existsb startup_event (map shown h) = false.
Proof.
  induction h as [|m h IH]; [reflexivity|].
  cbn [map existsb]. rewrite IH. unfold shown.
  destruct (String.eqb (role m) "user"); reflexivity.
Qed.

Lemma no_startup_event_requests w qe q :
  existsb startup_event (requests w qe q) = false.
Proof.
  unfold requests. induction (fst (engine_query w qe q)) as [|c calls IH];
    [reflexivity|exact IH].
Qed.

Lemma no_startup_event_query_view w s qe q :
  existsb startup_event (query_view w s qe q) = false.
Proof.
  unfold query_view, idle_view.
  rewrite !existsb_app, no_startup_event_shown. cbn.
  rewrite existsb_app, no_startup_event_requests. reflexivity.
Qed.

Lemma no_startup_event_chat_view w s qe chat_input :
  existsb startup_event (snd (chat_view w s qe chat_input)) = false.
Proof.
  assert (Hidle : existsb startup_event (idle_view s) = false).
  { unfold idle_view. rewrite existsb_app, no_startup_event_shown. reflexivity. }
  unfold chat_view. destruct chat_input as [q|]; [|exact Hidle].
  destruct (truthy (Some q)); [|exact Hidle].
  destruct (invocation w qe q) as [txt|e]; cbn [snd];
    unfold answer_view, query_error_view;
    rewrite existsb_app, no_startup_event_query_view; reflexivity.
Qed.

Lemma no_system_error_chat_view w s qe chat_input :
  existsb system_error (page_header ++ snd (chat_view w s qe chat_input)) = false.
Proof.
  assert (Hidle : existsb system_error (page_header ++ idle_view s) = false).
  { unfold idle_view. rewrite !existsb_app, no_system_error_shown. reflexivity. }
  unfold chat_view. destruct chat_input as [q|]; [|exact Hidle].
  destruct (truthy (Some q)); [|exact Hidle].
  destruct (invocation w qe q) as [txt|e]; cbn [snd];
    unfold answer_view, query_error_view;
    rewrite app_assoc, existsb_app, no_system_error_query_view; reflexivity.
Qed.

(** A run on a store that holds the engine keeps the engine and [Settings]. *)
Lemma run_ready_frame w chat_input s qe :
  engine_of s = Some qe ->
  engine_of (fst (run w chat_input s)) = Some qe
  /\ settings (fst (run w chat_input s)) = settings s.
Proof.
  intros He. rewrite (run_ready w chat_input s qe He). cbn [fst].
  destruct (chat_view_store w s qe chat_input) as [->|(q & txt & _ & _ & _ & ->)];
    split; try reflexivity; exact He.
Qed.

Lemma session_ready_frame steps : forall s qe,
  engine_of s = Some qe ->
  engine_of (session steps s) = Some qe /\ settings (session steps s) = settings s.
Proof.
  induction steps as [|[w chat_input] steps IH]; intros s qe He; [auto|].
  cbn [session]. destruct (run_ready_frame w chat_input s qe He) as [He' Hs'].
  destruct (IH _ qe He') as [H1 H2]. split; [exact H1|]. rewrite H2. exact Hs'.
Qed.

(** X2: the engine is built once.  A run on a store that holds the engine
    does not load the environment file, makes no call of the start-up and
    logs nothing; it leaves the engine and [Settings] as they are.  So the
    engine a session has obtained stays the same over all its later runs. *)
Theorem engine_built_once (s : Store) (qe : QueryEngine) :
  engine_of s = Some qe ->
  (forall w chat_input,
     existsb startup_event (snd (run w chat_input s)) = false
     /\ lib_calls (snd (run w chat_input s)) = []
     /\ engine_of (fst (run w chat_input s)) = Some qe
     /\ settings (fst (run w chat_input s)) = settings s)
  /\ (forall steps,
        engine_of (session steps s) = Some qe
        /\ settings (session steps s) = settings s).
Proof.
  intros He. split; [|intros steps; apply session_ready_frame, He].
  intros w chat_input.
  assert (Hno : existsb startup_event (snd (run w chat_input s)) = false).
  { rewrite (run_ready w chat_input s qe He). cbn [snd].
    rewrite existsb_app, no_startup_event_chat_view. reflexivity. }
  split; [exact Hno|]. split; [|apply run_ready_frame, He].
  revert Hno. generalize (snd (run w chat_input s)). intros t.
  induction t as [|ev t IH]; [reflexivity|].
  cbn [existsb]. intros [Hev Ht]%orb_false_elim.
  destruct ev; try discriminate Hev; exact (IH Ht).
Qed.

Lemma engine_built_once_witness :
  engine_of Sample.started = Some Sample.engine
  /\ engine_of
       (session [(Sample.llm_down, Some "Who appoints the judges?");
                 (Sample.unconfigured, None)] Sample.started)
     = Some Sample.engine.
Proof.
  assert (He : engine_of Sample.started = Some Sample.engine).
  { vm_compute. reflexivity. }
  split; [exact He|].
  apply (engine_built_once Sample.started Sample.engine He).
Defined.

(** X3: once the engine is stored, no run ends in the system error,
    whatever the input and whatever the services do. *)
Theorem no_system_error_once_started (w : World) (chat_input : option string)
    (s : Store) (qe : QueryEngine) :
  engine_of s = Some qe ->
  existsb system_error (snd (run w chat_input s)) = false.
Proof.
  intros He. rewrite (run_ready w chat_input s qe He). cbn [snd].
  apply no_system_error_chat_view.
Qed.

Lemma no_system_error_once_started_witness :
  existsb system_error
    (snd (run Sample.unconfigured (Some "Who appoints the judges?") Sample.started))
  = false.
Proof.
  apply (no_system_error_once_started Sample.unconfigured
           (Some "Who appoints the judges?") Sample.started Sample.engine).
  vm_compute. reflexivity.
Defined.

(** ** Runs without a query *)

(** X4: when [st.chat_input] gives nothing, or the empty string, a run on a
    store that holds the engine shows the page header, the history and the
    input box, and nothing else: no turn is displayed for the input, no
    request is made and the store is the one lines 20 and 21 leave. *)
Theorem idle_run_shows_history_only (w : World) (chat_input : option string)
    (s : Store) (qe : QueryEngine) :
  engine_of s = Some qe ->
  truthy chat_input = false ->
  run w chat_input s
  = (initialized s,
     page_header ++ map shown (history_of s) ++ [ChatInput "Ask about products..."]).
Proof.
  intros He Ht. rewrite (run_ready w chat_input s qe He).
  unfold chat_view. rewrite Ht. destruct chat_input; reflexivity.
Qed.

Lemma idle_run_shows_history_only_witness :
  run Sample.unreachable (Some "") Sample.started
  = (initialized Sample.started,
     page_header ++ map shown (history_of Sample.started)
       ++ [ChatInput "Ask about products..."]).
Proof.
  apply (idle_run_shows_history_only Sample.unreachable (Some "") Sample.started
           Sample.engine).
  - vm_compute. reflexivity.
  - reflexivity.
Defined.

(** X5: a session in which no query is submitted records nothing: over any
    number of runs, in any worlds and from any store, also while start-up
    keeps failing, the history stays what it was. *)
Theorem idle_session_keeps_history (steps : list (World * option string))
    (s : Store) :
  all_idle steps ->
  history_of (session steps s) = history_of s.
Proof.
  intros Hidle. revert s.
  induction Hidle as [|[w chat_input] steps Ht _ IH]; intros s; [reflexivity|].
  cbn [session]. rewrite IH. cbn [snd] in Ht.
  destruct (run_history w chat_input s) as [H|(q & txt & -> & Hq & _)]; [exact H|].
  rewrite (truthy_nonempty q Hq) in Ht. discriminate Ht.
Qed.

Lemma idle_session_keeps_history_witness :
  history_of
    (session [(Sample.llm_down, None); (Sample.answering, Some ""); (Sample.unreachable, None)]
       Sample.new_session)
  = history_of Sample.new_session.
Proof.
  apply (idle_session_keeps_history
           [(Sample.llm_down, None); (Sample.answering, Some ""); (Sample.unreachable, None)]
           Sample.new_session).
  repeat constructor.
Defined.

(** ** Start-up *)

Ltac startup_rewrite :=
  unfold startup, initialize_chatbot, create_query_engine, try_except, bind, lib_call,
    emit, lift, raise, ret, set_settings, get, put, environ_get;
  cbn [settings session_state].

(** X6: without the variable GOOGLE_API_KEY start-up stops at line 28,
    before any client is built.  The KeyError is logged and shown as
    "System Error: 'GOOGLE_API_KEY'"; no library call is made and the store
    is the one lines 20 and 21 leave, [Settings] included. *)
Theorem missing_google_key (w : World) (chat_input : option string) (s : Store) :
  engine_of s = None ->
  environ w !! "GOOGLE_API_KEY" = None ->
  run w chat_input s
  = (initialized s,
     page_header
       ++ [SpinnerEnter "Initializing system..."; LoadDotenv;
           LogError "Error initializing chatbot: 'GOOGLE_API_KEY'"; SpinnerExit;
           Error "System Error: 'GOOGLE_API_KEY'";
           Warning "Please check your configuration and try again."]).
Proof.
  intros He Hk.
  assert (E : startup w (initialized s)
              = (Raise (mkExn "KeyError" "'GOOGLE_API_KEY'"), initialized s,
                 [LoadDotenv; LogError "Error initializing chatbot: 'GOOGLE_API_KEY'"])).
  { startup_rewrite. rewrite Hk. reflexivity. }
  rewrite (run_startup_failed w chat_input s _ _ _ He E). reflexivity.
Qed.

Lemma missing_google_key_witness :
  run Sample.unconfigured (Some "Who appoints the judges?") Sample.new_session
  = (initialized Sample.new_session,
     page_header
       ++ [SpinnerEnter "Initializing system..."; LoadDotenv;
           LogError "Error initializing chatbot: 'GOOGLE_API_KEY'"; SpinnerExit;
           Error "System Error: 'GOOGLE_API_KEY'";
           Warning "Please check your configuration and try again."]).
Proof.
  apply (missing_google_key Sample.unconfigured (Some "Who appoints the judges?")
           Sample.new_session); reflexivity.
Defined.

(** X7: without the variable PINECONE_API_KEY start-up stops at line 34,
    after the two model clients were built and assigned to [Settings].  The
    run shows "System Error: 'PINECONE_API_KEY'" and stores no engine, but
    [Settings] keeps the two clients: the failed start-up is not undone. *)
Theorem missing_pinecone_key (w : World) (chat_input : option string) (s : Store)
    (google_api_key : string) :
  engine_of s = None ->
  environ w !! "GOOGLE_API_KEY" = Some google_api_key ->
  lib_fails w (NewGemini google_api_key "models/gemini-1.5-pro-002") = None ->
  lib_fails w (NewGeminiEmbedding "models/embedding-001") = None ->
  environ w !! "PINECONE_API_KEY" = None ->
  run w chat_input s
  = (mkStore (settings_for google_api_key) (session_state (initialized s)),
     page_header
       ++ [SpinnerEnter "Initializing system..."; LoadDotenv;
           Lib (NewGemini google_api_key "models/gemini-1.5-pro-002");
           Lib (NewGeminiEmbedding "models/embedding-001");
           LogError "Error initializing chatbot: 'PINECONE_API_KEY'"; SpinnerExit;
           Error "System Error: 'PINECONE_API_KEY'";
           Warning "Please check your configuration and try again."]).
Proof.
  intros He Hg Hl Hm Hp.
  assert (E : startup w (initialized s)
              = (Raise (mkExn "KeyError" "'PINECONE_API_KEY'"),
                 mkStore (settings_for google_api_key) (session_state (initialized s)),
                 [LoadDotenv;
                  Lib (NewGemini google_api_key "models/gemini-1.5-pro-002");
                  Lib (NewGeminiEmbedding "models/embedding-001");
                  LogError "Error initializing chatbot: 'PINECONE_API_KEY'"])).
  { startup_rewrite. rewrite Hg. cbn. rewrite Hl. cbn. rewrite Hm. cbn.
    rewrite Hp. reflexivity. }
  rewrite (run_startup_failed w chat_input s _ _ _ He E). reflexivity.
Qed.

Lemma missing_pinecone_key_witness :
  settings (fst (run Sample.no_pinecone_key None Sample.new_session))
  = settings_for "g-key"
  /\ engine_of (fst (run Sample.no_pinecone_key None Sample.new_session)) = None.
Proof.
  rewrite (missing_pinecone_key Sample.no_pinecone_key None Sample.new_session "g-key");
    try reflexivity.
  split; reflexivity.
Defined.

(** X8: start-up succeeds exactly when both credentials are in the
    environment and none of its seven library calls fails.  It then makes
    those calls once each in the order of the source, leaves the two model
    clients in [Settings], touches nothing of the session and gives the
    engine over the index "constitution" with the fixed prompt and
    [similarity_top_k = 7]. *)
Theorem startup_succeeds_iff (w : World) (s : Store) (qe : QueryEngine)
    (s1 : Store) (t1 : list Event) :
  startup w s = (Ok qe, s1, t1)
  <-> exists google_api_key pinecone_api_key,
        environ w !! "GOOGLE_API_KEY" = Some google_api_key
        /\ environ w !! "PINECONE_API_KEY" = Some pinecone_api_key
        /\ Forall (fun c => lib_fails w c = None)
             (startup_calls google_api_key pinecone_api_key)
        /\ qe = engine_for pinecone_api_key
        /\ s1 = mkStore (settings_for google_api_key) (session_state s)
        /\ t1 = LoadDotenv :: map Lib (startup_calls google_api_key pinecone_api_key).
Proof.
  destruct s as [st ss]. split.
  - startup_cases; intros [= <- <- <-].
    eexists _, _. split; [reflexivity|]. split; [reflexivity|].
    split; [|repeat split].
    repeat (constructor; [assumption|]). constructor.
  - intros (gk & pk & Hg & Hp & Hf & -> & -> & ->).
    unfold startup_calls in Hf. rewrite !Forall_cons in Hf.
    destruct Hf as (H1 & H2 & H3 & H4 & H5 & H6 & H7 & _).
    startup_rewrite. rewrite Hg. cbn. rewrite H1. cbn. rewrite H2. cbn.
    rewrite Hp. cbn. rewrite H3. cbn. rewrite H4. cbn. rewrite H5. cbn.
    rewrite H6. cbn. rewrite H7. reflexivity.
Qed.

Lemma startup_succeeds_iff_witness :
  startup Sample.answering (initialized Sample.new_session)
  = (Ok Sample.engine,
     mkStore (settings_for "g-key") (session_state (initialized Sample.new_session)),
     LoadDotenv :: map Lib (startup_calls "g-key" "p-key")).
Proof.
  apply (startup_succeeds_iff Sample.answering (initialized Sample.new_session)).
  exists "g-key", "p-key". repeat split. repeat constructor.
Defined.

(** X9: [initialize_chatbot] logs exactly what it raises.  When it raises
    [e] its log holds the one record "Error initializing chatbot: " followed
    by [str(e)], written last; when it returns an index it logs nothing. *)
Theorem initialize_chatbot_logs_failure (w : World) (s : Store) :
  log_errors (snd (initialize_chatbot w s))
  = match fst (fst (initialize_chatbot w s)) with
    | Ok _ => []
    | Raise e => ["Error initializing chatbot: " +:+ exn_str e]
    end
  /\ (forall e, fst (fst (initialize_chatbot w s)) = Raise e ->
        last (snd (initialize_chatbot w s))
        = Some (LogError ("Error initializing chatbot: " +:+ exn_str e))).
Proof.
  destruct s as [st ss]. split.
  - startup_cases; reflexivity.
  - intros e. startup_cases; intros [= <-]; reflexivity.
Qed.

Lemma initialize_chatbot_logs_failure_witness :
  last (snd (initialize_chatbot Sample.llm_down Sample.new_session))
  = Some (LogError "Error initializing chatbot: 503 model is overloaded").
Proof.
  apply (proj2 (initialize_chatbot_logs_failure Sample.llm_down Sample.new_session)
           (mkExn "ServiceUnavailable" "503 model is overloaded")).
  vm_compute. reflexivity.
Defined.

(** X10: a failure of [create_query_engine] is shown but not logged.  When
    [initialize_chatbot] has returned the index and [as_query_engine] then
    raises [e], the run shows "System Error: " with [str(e)] and stores no
    engine, and the log of the run has no record: the logging handler of
    lines 42 to 44 covers [initialize_chatbot] only. *)
Theorem engine_failure_not_logged (w : World) (chat_input : option string)
    (s : Store) (index : VectorStoreIndex) (s1 : Store) (t1 : list Event) (e : Exn) :
  engine_of s = None ->
  initialize_chatbot w (initialized s) = (Ok index, s1, t1) ->
  lib_fails w AsQueryEngine = Some e ->
  run w chat_input s = (s1, system_error_view (t1 ++ [Lib AsQueryEngine]) e)
  /\ engine_of (fst (run w chat_input s)) = None
  /\ log_errors (snd (run w chat_input s)) = [].
Proof.
  intros He Hi Hf.
  assert (E : startup w (initialized s) = (Raise e, s1, t1 ++ [Lib AsQueryEngine])).
  { unfold startup. rewrite (bind_ok _ _ _ _ _ _ Hi).
    unfold create_query_engine, lib_call, bind, emit, raise. rewrite Hf. reflexivity. }
  rewrite (run_startup_failed w chat_input s _ _ _ He E). cbn [fst snd].
  split; [reflexivity|].
  pose proof (initialize_chatbot_frame w (initialized s)) as (r & st' & t & Hi' & _).
  rewrite Hi in Hi'. injection Hi' as _ Hs1 _.
  split; [rewrite Hs1; exact He|].
  assert (Hlog : log_errors t1 = []).
  { change t1 with (snd (Ok index, s1, t1)). rewrite <- Hi.
    destruct (initialized s) as [st0 ss0].
    assert (Hok : exists i, fst (fst (initialize_chatbot w (mkStore st0 ss0))) = Ok i).
    { rewrite Hi. eauto. }
    revert Hok. clear. startup_cases; intros [i [=]]; reflexivity. }
  unfold system_error_view, log_errors. cbn [page_header app omap].
  change (log_errors
            ((t1 ++ [Lib AsQueryEngine])
               ++ [SpinnerExit; Error ("System Error: " +:+ exn_str e);
                   Warning "Please check your configuration and try again."]) = []).
  unfold log_errors. rewrite !omap_app. fold (log_errors t1). rewrite Hlog. reflexivity.
Qed.

Lemma engine_failure_not_logged_witness :
  engine_of (fst (run Sample.engine_build_fails None Sample.new_session)) = None
  /\ log_errors (snd (run Sample.engine_build_fails None Sample.new_session)) = [].
Proof.
  destruct (initialize_chatbot Sample.engine_build_fails (initialized Sample.new_session))
    as [[r s1] t1] eqn:E.
  assert (Hr : r = Ok (engine_index Sample.engine)).
  { change r with (fst (fst (r, s1, t1))). rewrite <- E. vm_compute. reflexivity. }
  subst r.
  destruct (engine_failure_not_logged Sample.engine_build_fails None Sample.new_session
              (engine_index Sample.engine) s1 t1
              (mkExn "ValueError" "unknown response mode") eq_refl E eq_refl)
    as (_ & H2 & H3).
  split; [exact H2|exact H3].
Defined.

(** X11: the library calls of a start-up are an initial part of the seven
    calls of the source in their order: the language-model client, the
    embedding client, the Pinecone client, its index "constitution", the
    vector store, the index over it, the query engine.  None is made out of
    turn, none twice, and none after one that failed. *)
Theorem startup_call_order (w : World) (s : Store) :
  lib_calls (snd (startup w s))
    `prefix_of` startup_calls (default "" (environ w !! "GOOGLE_API_KEY"))
                  (default "" (environ w !! "PINECONE_API_KEY"))
  /\ (forall c e,
        c ∈ lib_calls (snd (startup w s)) ->
        lib_fails w c = Some e ->
        fst (fst (startup w s)) = Raise e
        /\ last (lib_calls (snd (startup w s))) = Some c).
Proof.
  destruct s as [st ss]. split.
  - startup_cases; unfold startup_calls; eexists; reflexivity.
  - intros c e. startup_cases; intros H Hf;
      repeat (apply elem_of_cons in H as [H|H];
              [try (subst c; split; [congruence|try reflexivity; congruence])|]);
      apply elem_of_nil in H; contradiction.
Qed.

Lemma startup_call_order_witness :
  fst (fst (startup Sample.llm_down Sample.new_session))
  = Raise (mkExn "ServiceUnavailable" "503 model is overloaded")
  /\ last (lib_calls (snd (startup Sample.llm_down Sample.new_session)))
     = Some (NewGemini "g-key" "models/gemini-1.5-pro-002").
Proof.
  apply (startup_call_order Sample.llm_down Sample.new_session).
  - vm_compute. apply list_elem_of_singleton. reflexivity.
  - reflexivity.
Defined.

(** ** Queries and what is displayed *)

(** X12: a response object without a [response] attribute is a query
    error, not a crash.  When the engine returns such an object for a query
    that is not empty, the AttributeError of [get_response_text] is caught
    with the query: the run shows "Error processing question: " and the
    message that names the class of the object and the attribute, and leaves
    the store as lines 20 and 21 leave it. *)
Theorem missing_response_attribute_reported (w : World) (s : Store)
    (qe : QueryEngine) (q : string) (response : Obj) :
  engine_of s = Some qe ->
  q <> "" ->
  snd (engine_query w qe q) = Ok response ->
  obj_attrs response !! "response" = None ->
  run w (Some q) s
  = (initialized s,
     page_header
       ++ query_view w s qe q
       ++ [Error ("Error processing question: '" +:+ obj_class response
                  +:+ "' object has no attribute 'response'");
           Info "Please try rephrasing your question."]).
Proof.
  intros He Hq Hr Ha.
  assert (Hi : invocation w qe q
               = Raise (mkExn "AttributeError"
                          (squote +:+ obj_class response
                           +:+ "' object has no attribute '" +:+ "response" +:+ squote))).
  { unfold invocation. rewrite Hr. unfold get_response_text, getattr. rewrite Ha.
    reflexivity. }
  destruct (query_outcome w s qe q He Hq) as [(txt & Hi' & _)|(e & Hi' & R)];
    rewrite Hi in Hi'; [discriminate|].
  injection Hi' as <-. rewrite R. reflexivity.
Qed.

Lemma missing_response_attribute_reported_witness :
  run Sample.streaming (Some "Who appoints the judges?") Sample.started
  = (initialized Sample.started,
     page_header
       ++ query_view Sample.streaming Sample.started Sample.engine
            "Who appoints the judges?"
       ++ [Error ("Error processing question: '" +:+ "StreamingResponse"
                  +:+ "' object has no attribute 'response'");
           Info "Please try rephrasing your question."]).
Proof.
  apply (missing_response_attribute_reported Sample.streaming Sample.started
           Sample.engine "Who appoints the judges?" (mkObj "StreamingResponse" ∅)).
  - vm_compute. reflexivity.
  - discriminate.
  - reflexivity.
  - reflexivity.
Defined.

Lemma bubble_displayed_as m : bubble (shown m) = Some (displayed_as m).
Proof.
  unfold shown, displayed_as. destruct (String.eqb (role m) "user"); reflexivity.
Qed.

Lemma transcript_displayed_as h placeholder rest :
  transcript (map shown h ++ ChatInput placeholder :: rest) = map displayed_as h.
Proof.
  induction h as [|m h IH]; [reflexivity|].
  cbn [map app transcript]. pose proof (bubble_displayed_as m) as Hb.
  destruct (shown m); try discriminate Hb; rewrite Hb, IH; reflexivity.
Qed.

Lemma run_ready_transcript w chat_input s qe :
  engine_of s = Some qe ->
  transcript (snd (run w chat_input s)) = map displayed_as (history_of s).
Proof.
  intros He. rewrite (run_ready w chat_input s qe He). cbn [snd].
  destruct (chat_view_begins w s qe chat_input) as [rest ->].
  cbn [page_header app transcript bubble]. apply transcript_displayed_as.
Qed.

(** X13: the loop of lines 89 to 96 displays every entry of the history,
    whatever its role: one bubble per entry, in the order of the history,
    with the content unchanged.  An entry with the role "user" goes under
    "user", an entry with any other role under "assistant". *)
Theorem every_turn_displayed (w : World) (chat_input : option string) (s : Store)
    (qe : QueryEngine) :
  engine_of s = Some qe ->
  transcript (snd (run w chat_input s)) = map displayed_as (history_of s)
  /\ length (transcript (snd (run w chat_input s))) = length (history_of s)
  /\ map content (transcript (snd (run w chat_input s))) = map content (history_of s)
  /\ (forall (i : nat) m,
        history_of s !! i = Some m ->
        role m <> "user" ->
        transcript (snd (run w chat_input s)) !! i
        = Some (mkMessage "assistant" (content m))).
Proof.
  intros He. rewrite (run_ready_transcript w chat_input s qe He).
  split; [reflexivity|]. split; [apply length_map|]. split.
  - rewrite map_map. reflexivity.
  - intros i m Hm Hr. rewrite list_lookup_fmap, Hm. cbn. unfold displayed_as.
    apply String.eqb_neq in Hr. rewrite Hr. reflexivity.
Qed.

Lemma every_turn_displayed_witness :
  transcript (snd (run Sample.answering None Sample.foreign_role))
  = [mkMessage "user" "Hello"; mkMessage "assistant" "You are helpful."].
Proof.
  rewrite (proj1 (every_turn_displayed Sample.answering None Sample.foreign_role
                    Sample.engine eq_refl)).
  reflexivity.
Defined.

(** X14: the question of a failed query is displayed but not kept.  In the
    run in which the pipeline invocation raises, the user's text is shown
    under "user" before the error; every later run displays the history as
    it was before the question, without it. *)
Theorem failed_question_shown_once (w : World) (s : Store) (qe : QueryEngine)
    (q : string) (e : Exn) :
  engine_of s = Some qe ->
  q <> "" ->
  invocation w qe q = Raise e ->
  ChatWrite "user" q ∈ snd (run w (Some q) s)
  /\ (forall w' chat_input',
        transcript (snd (run w' chat_input' (fst (run w (Some q) s))))
        = map displayed_as (history_of s)).
Proof.
  intros He Hq Hi.
  destruct (query_outcome w s qe q He Hq) as [(txt & Hi' & _)|(e' & _ & R)];
    [rewrite Hi in Hi'; discriminate|].
  rewrite R. cbn [fst snd]. split.
  - unfold query_error_view, query_view.
    rewrite !elem_of_app. right. left. right. apply elem_of_cons. left. reflexivity.
  - intros w' chat_input'. rewrite run_initialized.
    apply (run_ready_transcript w' chat_input' s qe He).
Qed.

Lemma failed_question_shown_once_witness :
  ChatWrite "user" "Who appoints the judges?"
    ∈ snd (run Sample.unreachable (Some "Who appoints the judges?") Sample.started)
  /\ transcript
       (snd (run Sample.answering None
               (fst (run Sample.unreachable (Some "Who appoints the judges?")
                       Sample.started))))
     = map displayed_as (history_of Sample.started).
Proof.
  destruct (failed_question_shown_once Sample.unreachable Sample.started Sample.engine
              "Who appoints the judges?" (mkExn "ConnectionError" "service unreachable"))
    as [H1 H2].
  - vm_compute. reflexivity.
  - discriminate.
  - reflexivity.
  - split; [exact H1|apply H2].
Defined.

(** X15: whatever the [response] attribute holds is answered as its [str].
    For a query that is not empty, on a store that holds the engine, the run
    shows [str(response.response)] under "assistant" and records it after
    the query.  An attribute that is [None] is therefore shown and recorded
    as the answer "None". *)
Theorem response_recorded_as_str (w : World) (s : Store) (qe : QueryEngine)
    (q : string) (response : Obj) (v : Val) :
  engine_of s = Some qe ->
  q <> "" ->
  snd (engine_query w qe q) = Ok response ->
  obj_attrs response !! "response" = Some v ->
  run w (Some q) s
  = (with_turns s [mkMessage "user" q; mkMessage "assistant" (str v)],
     page_header ++ answer_view w s qe q (str v))
  /\ (v = VNone ->
      history_of (fst (run w (Some q) s))
      = history_of s ++ [mkMessage "user" q; mkMessage "assistant" "None"]).
Proof.
  intros He Hq Hr Ha.
  assert (Hi : invocation w qe q = Ok (str v)).
  { unfold invocation. rewrite Hr. unfold get_response_text, getattr. rewrite Ha.
    reflexivity. }
  destruct (query_outcome w s qe q He Hq) as [(txt & Hi' & R)|(e & Hi' & _)];
    rewrite Hi in Hi'; [|discriminate].
  injection Hi' as <-. rewrite R. split; [reflexivity|].
  intros ->. reflexivity.
Qed.

Lemma response_recorded_as_str_witness :
  history_of
    (fst (run (mkWorld Sample.env Sample.never_fails
                 (fun _ q => ([Embed q], Ok (Sample.response VNone))))
            (Some "Who appoints the judges?") Sample.started))
  = history_of Sample.started
      ++ [mkMessage "user" "Who appoints the judges?"; mkMessage "assistant" "None"].
Proof.
  apply (response_recorded_as_str
           (mkWorld Sample.env Sample.never_fails
              (fun _ q => ([Embed q], Ok (Sample.response VNone))))
           Sample.started Sample.engine "Who appoints the judges?"
           (Sample.response VNone) VNone).
  - vm_compute. reflexivity.
  - discriminate.
  - reflexivity.
  - reflexivity.
  - reflexivity.
Defined.

(** ** Trying again *)

(** What start-up returns and records depends on the world only. *)
Lemma startup_store_independent w s s' :
  fst (fst (startup w s)) = fst (fst (startup w s'))
  /\ snd (startup w s) = snd (startup w s').
Proof.
  destruct s as [st ss], s' as [st' ss']. startup_cases; split; reflexivity.
Qed.

Lemma failed_runs_keep_failing w e inputs : forall s,
  engine_of s = None ->
  fst (fst (startup w (initialized s))) = Raise e ->
  engine_of (session (map (pair w) inputs) s) = None
  /\ history_of (session (map (pair w) inputs) s) = history_of s
  /\ (forall chat_input,
        snd (run w chat_input (session (map (pair w) inputs) s))
        = snd (run w chat_input s)).
Proof.
  induction inputs as [|chat_input inputs IH]; intros s He Hr;
    [split; [exact He|split; reflexivity]|].
  destruct (startup w (initialized s)) as [[r s1] t1] eqn:E. cbn [fst] in Hr. subst r.
  pose proof (run_startup_failed w chat_input s e s1 t1 He E) as R.
  destruct (startup_frame w (initialized s)) as (r & st' & t & E' & _).
  rewrite E in E'. injection E' as _ Hs1 _.
  assert (He1 : engine_of s1 = None) by (rewrite Hs1; exact He).
  assert (Hh1 : history_of s1 = history_of s) by (rewrite Hs1; reflexivity).
  assert (Hr1 : fst (fst (startup w (initialized s1))) = Raise e).
  { rewrite (proj1 (startup_store_independent w (initialized s1) (initialized s))), E.
    reflexivity. }
  assert (Hview : forall chat_input', snd (run w chat_input' s1) = snd (run w chat_input' s)).
  { intros chat_input'.
    destruct (startup w (initialized s1)) as [[r' s2] t2] eqn:E2. cbn [fst] in Hr1. subst r'.
    rewrite (run_startup_failed w chat_input' s1 e s2 t2 He1 E2).
    rewrite (run_startup_failed w chat_input' s e s1 t1 He E). cbn [snd].
    pose proof (proj2 (startup_store_independent w (initialized s1) (initialized s))) as Ht.
    rewrite E2, E in Ht. cbn [snd] in Ht. rewrite Ht. reflexivity. }
  cbn [map session]. rewrite R. cbn [fst].
  destruct (IH s1 He1 Hr1) as (H1 & H2 & H3).
  split; [exact H1|]. split; [rewrite H2; exact Hh1|].
  intros chat_input'. rewrite H3. apply Hview.
Qed.

(** X16: trying again in an unchanged world fails again.  What start-up
    does depends on the environment and the library, not on the store; so
    when it raises [e] in a session without engine, every further run in the
    same world, whatever the input, stores no engine, records nothing and
    shows the same system error with [str(e)]. *)
Theorem unchanged_world_fails_again (w : World) (s : Store) (e : Exn) (s1 : Store)
    (t1 : list Event) (inputs : list (option string)) :
  engine_of s = None ->
  startup w (initialized s) = (Raise e, s1, t1) ->
  engine_of (session (map (pair w) inputs) s) = None
  /\ history_of (session (map (pair w) inputs) s) = history_of s
  /\ (forall chat_input,
        snd (run w chat_input (session (map (pair w) inputs) s))
        = system_error_view t1 e).
Proof.
  intros He E.
  assert (Hr : fst (fst (startup w (initialized s))) = Raise e) by (rewrite E; reflexivity).
  destruct (failed_runs_keep_failing w e inputs s He Hr) as (H1 & H2 & H3).
  split; [exact H1|]. split; [exact H2|].
  intros chat_input. rewrite H3, (run_startup_failed w chat_input s e s1 t1 He E).
  reflexivity.
Qed.

Lemma unchanged_world_fails_again_witness :
  engine_of
    (session (map (pair Sample.llm_down) [None; Some "Who appoints the judges?"; None])
       Sample.new_session)
  = None.
Proof.
  destruct (startup Sample.llm_down (initialized Sample.new_session))
    as [[r s1] t1] eqn:E.
  assert (Hr : r = Raise (mkExn "ServiceUnavailable" "503 model is overloaded")).
  { change r with (fst (fst (r, s1, t1))). rewrite <- E. vm_compute. reflexivity. }
  subst r.
  apply (unchanged_world_fails_again Sample.llm_down Sample.new_session _ s1 t1
           [None; Some "Who appoints the judges?"; None] eq_refl E).
Defined.
